(** * Task Manager API (backend/main.py): model and verification

    The program is a FastAPI application that keeps its tasks in two
    module-level globals, the insertion-ordered dictionary [tasks_db] and
    the counter [current_id], and exposes its handlers over them.

    The development follows the source file top to bottom:
    - [PyDict]: the part of Python's [dict] the handlers use, as an
      association list so that iteration order is part of the model;
    - [Task], [TaskCreate], [TaskUpdate]: the three Pydantic models, with
      [.dict()], [.dict(exclude_unset=True)] and the validation that the
      [Task] constructor performs on its keyword arguments;
    - a state-and-exception monad for the handlers, the handlers themselves,
      and the status code the framework answers with;
    - sequences of requests, the invariant of the store, and the theorems. *)

From Stdlib Require Import ZArith List String Bool Lia Sorted.
Import ListNotations.
Open Scope string_scope.
Open Scope list_scope.
Open Scope Z_scope.

Set Implicit Arguments.

(* ================================================================== *)
(** ** Python's insertion-ordered dictionary, keys of type [int] *)
(* ================================================================== *)

Module PyDict.
Section Dict.
Variable V : Type.

(** Entries are kept in insertion order.  A Python dictionary never holds
    a key twice; [keys_unique] below states it and every operation keeps
    it. *)
Definition dict : Type := list (Z * V).

Definition empty : dict := [].

(** [d.get(k)] *)
Fixpoint get (k : Z) (d : dict) : option V :=
  match d with
  | [] => None
  | (k', v) :: r => if k' =? k then Some v else get k r
  end.

(** [k in d] *)
Definition contains (k : Z) (d : dict) : bool :=
  match get k d with Some _ => true | None => false end.

(** [d[k] = v]: an existing key keeps its position and gets the new
    value, a new key goes to the end. *)
Fixpoint setitem (k : Z) (v : V) (d : dict) : dict :=
  match d with
  | [] => [(k, v)]
  | (k', v') :: r =>
      if k' =? k then (k', v) :: r else (k', v') :: setitem k v r
  end.

(** [del d[k]].  Python raises [KeyError] on a missing key; the only call
    site tests [k in d] first, so that case is left as "no change". *)
Definition delitem (k : Z) (d : dict) : dict :=
  filter (fun e => negb (fst e =? k)) d.

(** [d.keys()] and [d.values()], in iteration order *)
Definition keys (d : dict) : list Z := map fst d.
Definition values (d : dict) : list V := map snd d.

Definition keys_unique (d : dict) : Prop := NoDup (keys d).
End Dict.
End PyDict.

(* ================================================================== *)
(** ** Values carried by the schemas *)
(* ================================================================== *)

(** [datetime.date] and [datetime.datetime]; the program only stores and
    copies them.  A value of these types stands for an object Python has
    already built; no function below builds one from text or checks its
    fields. *)
Record date := { year : Z; month : Z; day : Z }.
Record datetime :=
  { on : date; hour : Z; minute : Z; second : Z; microsecond : Z }.

(** One keyword argument of a model constructor, or one key of the dict a
    model is dumped to: the key is missing, or it is there with a value. *)
Inductive entry (A : Type) : Type :=
| Absent
| Present (v : A).
Arguments Absent {A}.
Arguments Present {A} v.

(** The keyword dictionaries the program builds ([stored_task.dict()],
    [task_in.dict()], [update_data], [updated_task_data]) only ever have
    keys among the seven field names, and a value is [None] or of the
    field's type.  A request body is given in the same form: a body with
    a value of another type, or with a date that does not parse, is
    refused by the framework before any of this code runs and has no
    counterpart here. *)
Module Data.
Record t := {
  title : entry (option string);
  description : entry (option string);
  status : entry (option string);
  due_date : entry (option date);
  assignee : entry (option string);
  id : entry (option Z);
  created_at : entry (option datetime)
}.

(** [a.update(b)], key by key: a key of [b] overrides, the others stay. *)
Definition over {A} (old new : entry A) : entry A :=
  match new with
  | Absent => old
  | Present v => Present v
  end.

Definition update (a b : t) : t :=
  {| title := over (title a) (title b);
     description := over (description a) (description b);
     status := over (status a) (status b);
     due_date := over (due_date a) (due_date b);
     assignee := over (assignee a) (assignee b);
     id := over (id a) (id b);
     created_at := over (created_at a) (created_at b) |}.
End Data.

(** What Pydantic reports for one field. *)
Inductive error_kind := missing | none_not_allowed.

Definition errors := list (string * error_kind).

(** Exceptions that leave a handler or the request parser. *)
Inductive exn :=
| HTTPException (status_code : Z) (detail : string)
| ValidationError (errs : errors)          (* pydantic.ValidationError *)
| RequestValidationError (errs : errors).  (* raised by FastAPI on a bad body *)

Inductive result (A : Type) : Type :=
| Return (a : A)
| Raise (e : exn).
Arguments Return {A} a.
Arguments Raise {A} e.

(* ================================================================== *)
(** ** Field validators *)
(* ================================================================== *)

Module Field.
(** [name: T = Field(...)]: required, [None] refused. *)
Definition required {A} (name : string) (e : entry (option A))
  : errors + A :=
  match e with
  | Absent => inl [(name, missing)]
  | Present None => inl [(name, none_not_allowed)]
  | Present (Some v) => inr v
  end.

(** [name: T = Field(default, ...)]: a default when missing, [None]
    refused. *)
Definition defaulted {A} (name : string) (default : A)
           (e : entry (option A)) : errors + A :=
  match e with
  | Absent => inr default
  | Present None => inl [(name, none_not_allowed)]
  | Present (Some v) => inr v
  end.

(** [name: Optional[T] = None] *)
Definition optional {A} (e : entry (option A)) : errors + option A :=
  match e with
  | Absent => inr None
  | Present v => inr v
  end.

Definition errs {A} (r : errors + A) : errors :=
  match r with inl e => e | inr _ => [] end.
End Field.

(* ================================================================== *)
(** ** The Pydantic models *)
(* ================================================================== *)

(** [class TaskBase(BaseModel)] and [class TaskCreate(TaskBase): pass] *)
Module TaskCreate.
Record t := {
  title : string;
  description : option string;
  status : string;
  due_date : option date;
  assignee : option string
}.

(** The [TaskCreate] constructor on the keys of a request body, as
    FastAPI runs it, for a body whose values are [None] or of the field's
    type: what is left to check is that required fields are there and
    that no [str] field is [None].  Keys that are not fields of the model
    are ignored. *)
Definition validate (body : Data.t) : errors + t :=
  match Field.required "title" (Data.title body),
        Field.optional (Data.description body),
        Field.defaulted "status" "todo" (Data.status body),
        Field.optional (Data.due_date body),
        Field.optional (Data.assignee body) with
  | inr ti, inr de, inr st, inr du, inr a =>
      inr {| title := ti; description := de; status := st;
             due_date := du; assignee := a |}
  | r1, r2, r3, r4, r5 =>
      inl (Field.errs r1 ++ Field.errs r2 ++ Field.errs r3
           ++ Field.errs r4 ++ Field.errs r5)
  end.

(** [task_in.dict()] *)
Definition dict (m : t) : Data.t :=
  {| Data.title := Present (Some (title m));
     Data.description := Present (description m);
     Data.status := Present (Some (status m));
     Data.due_date := Present (due_date m);
     Data.assignee := Present (assignee m);
     Data.id := Absent;
     Data.created_at := Absent |}.
End TaskCreate.

(** [class TaskUpdate(BaseModel)]: every field is [Optional] with default
    [None]; the model remembers which fields the body set
    ([__fields_set__]), so a field is [Absent] (not set), [Present None]
    (set to null) or [Present (Some v)]. *)
Module TaskUpdate.
Record t := {
  title : entry (option string);
  description : entry (option string);
  status : entry (option string);
  due_date : entry (option date);
  assignee : entry (option string)
}.

(** The [TaskUpdate] constructor on the keys of a request body: the
    model declares neither [id] nor [created_at], so these keys of a
    body are dropped. *)
Definition validate (body : Data.t) : t :=
  {| title := Data.title body;
     description := Data.description body;
     status := Data.status body;
     due_date := Data.due_date body;
     assignee := Data.assignee body |}.

(** [task_update.dict(exclude_unset=True)] *)
Definition dict_exclude_unset (m : t) : Data.t :=
  {| Data.title := title m;
     Data.description := description m;
     Data.status := status m;
     Data.due_date := due_date m;
     Data.assignee := assignee m;
     Data.id := Absent;
     Data.created_at := Absent |}.

(** The body [{}] *)
Definition empty : t :=
  {| title := Absent; description := Absent; status := Absent;
     due_date := Absent; assignee := Absent |}.
End TaskUpdate.

(** [class Task(TaskBase)]: the fields of [TaskBase], then [id] and
    [created_at]. *)
Module Task.
Record t := {
  title : string;
  description : option string;
  status : string;
  due_date : option date;
  assignee : option string;
  id : Z;
  created_at : datetime
}.

(** The [Task] constructor on keyword arguments [data] *)
Definition validate (data : Data.t) : result t :=
  match Field.required "title" (Data.title data),
        Field.optional (Data.description data),
        Field.defaulted "status" "todo" (Data.status data),
        Field.optional (Data.due_date data),
        Field.optional (Data.assignee data),
        Field.required "id" (Data.id data),
        Field.required "created_at" (Data.created_at data) with
  | inr ti, inr de, inr st, inr du, inr a, inr i, inr c =>
      Return {| title := ti; description := de; status := st;
                due_date := du; assignee := a; id := i;
                created_at := c |}
  | r1, r2, r3, r4, r5, r6, r7 =>
      Raise (ValidationError
               (Field.errs r1 ++ Field.errs r2 ++ Field.errs r3
                ++ Field.errs r4 ++ Field.errs r5 ++ Field.errs r6
                ++ Field.errs r7))
  end.

(** [task.dict()] *)
Definition dict (m : t) : Data.t :=
  {| Data.title := Present (Some (title m));
     Data.description := Present (description m);
     Data.status := Present (Some (status m));
     Data.due_date := Present (due_date m);
     Data.assignee := Present (assignee m);
     Data.id := Present (Some (id m));
     Data.created_at := Present (Some (created_at m)) |}.
End Task.

(* ================================================================== *)
(** ** Global state and the handler monad *)
(* ================================================================== *)

(** The two module-level globals. *)
Record State := {
  tasks_db : PyDict.dict Task.t;
  current_id : Z
}.

(** [tasks_db = {}] and [current_id = 0] at import time. *)
Definition initial : State :=
  {| tasks_db := PyDict.empty Task.t; current_id := 0 |}.

(** A handler reads and writes the globals and either returns or raises;
    what it wrote before raising stays written. *)
Definition M (A : Type) : Type := State -> result A * State.

Definition ret {A} (a : A) : M A := fun s => (Return a, s).

Definition raise {A} (e : exn) : M A := fun s => (Raise e, s).

Definition bind {A B} (m : M A) (f : A -> M B) : M B :=
  fun s =>
    match m s with
    | (Return a, s') => f a s'
    | (Raise e, s') => (Raise e, s')
    end.

Notation "x <- m ;; k" := (bind m (fun x => k))
  (at level 61, m at next level, right associativity).
Notation "m ;; k" := (bind m (fun _ => k))
  (at level 61, right associativity).

(** A constructor call inside a handler: its exception is the handler's. *)
Definition lift {A} (r : result A) : M A := fun s => (r, s).

Definition read_tasks_db : M (PyDict.dict Task.t) :=
  fun s => (Return (tasks_db s), s).

(** In-place mutation of the dictionary object bound to [tasks_db]. *)
Definition mutate_tasks_db
           (f : PyDict.dict Task.t -> PyDict.dict Task.t) : M unit :=
  fun s => (Return tt,
            {| tasks_db := f (tasks_db s); current_id := current_id s |}).

(* ================================================================== *)
(** ** The handlers *)
(* ================================================================== *)

(** [def get_next_id()] *)
Definition get_next_id : M Z :=
  fun s =>
    let c := current_id s + 1 in
    (Return c, {| tasks_db := tasks_db s; current_id := c |}).

(** [def read_root()]; the returned dict, as its list of items. *)
Definition read_root : M (list (string * string)) :=
  ret [("message", "Task Manager API is running")].

(** [def list_tasks()] *)
Definition list_tasks : M (list Task.t) :=
  db <- read_tasks_db ;;
  ret (PyDict.values db).

(** The keywords [id=task_id, created_at=datetime.utcnow()] of the
    constructor call in [create_task]. *)
Definition id_created_at (task_id : Z) (now : datetime) : Data.t :=
  {| Data.title := Absent; Data.description := Absent;
     Data.status := Absent; Data.due_date := Absent;
     Data.assignee := Absent;
     Data.id := Present (Some task_id);
     Data.created_at := Present (Some now) |}.

(** [def create_task(task_in)].  The clock reading [datetime.utcnow()] is
    the argument [utcnow]. *)
Definition create_task (utcnow : datetime) (task_in : TaskCreate.t)
  : M Task.t :=
  task_id <- get_next_id ;;
  task <- lift (Task.validate
                  (Data.update (id_created_at task_id utcnow)
                               (TaskCreate.dict task_in))) ;;
  mutate_tasks_db (PyDict.setitem task_id task) ;;
  ret task.

Definition not_found {A} : M A :=
  raise (HTTPException 404 "Task not found").

(** [def get_task(task_id)].  A model instance is truthy, so [not task]
    holds exactly for [None]. *)
Definition get_task (task_id : Z) : M Task.t :=
  db <- read_tasks_db ;;
  match PyDict.get task_id db with
  | None => not_found
  | Some task => ret task
  end.

(** [def update_task(task_id, task_update)] *)
Definition update_task (task_id : Z) (task_update : TaskUpdate.t)
  : M Task.t :=
  db <- read_tasks_db ;;
  match PyDict.get task_id db with
  | None => not_found
  | Some stored_task =>
      let update_data := TaskUpdate.dict_exclude_unset task_update in
      let updated_task_data :=
        Data.update (Task.dict stored_task) update_data in
      updated_task <- lift (Task.validate updated_task_data) ;;
      mutate_tasks_db (PyDict.setitem task_id updated_task) ;;
      ret updated_task
  end.

(** [def delete_task(task_id)]; falls off the end, so returns [None]. *)
Definition delete_task (task_id : Z) : M unit :=
  db <- read_tasks_db ;;
  if negb (PyDict.contains task_id db) then not_found
  else mutate_tasks_db (PyDict.delitem task_id).

(* ================================================================== *)
(** ** The HTTP surface *)
(* ================================================================== *)

(** Status code of the response.  A handler that returns answers with the
    code of its route decorator.  FastAPI turns an [HTTPException] into its
    own [status_code] and a [RequestValidationError] into 422; any other
    exception that leaves a handler, a [pydantic.ValidationError] included,
    has no registered handler and becomes 500 Internal Server Error. *)
Definition response_status {A} (declared : Z) (r : result A) : Z :=
  match r with
  | Return _ => declared
  | Raise (HTTPException status_code _) => status_code
  | Raise (RequestValidationError _) => 422
  | Raise (ValidationError _) => 500
  end.

(** [POST /tasks]: the body is parsed into a [TaskCreate] before the handler
    runs; when that fails the handler is not called. *)
Definition POST_tasks (utcnow : datetime) (body : Data.t) : M Task.t :=
  match TaskCreate.validate body with
  | inl errs => raise (RequestValidationError errs)
  | inr task_in => create_task utcnow task_in
  end.

(** [PUT /tasks/{task_id}] *)
Definition PUT_task (task_id : Z) (body : Data.t) : M Task.t :=
  update_task task_id (TaskUpdate.validate body).

(* ================================================================== *)
(** ** Sequences of operations *)
(* ================================================================== *)

Inductive call :=
| Create (utcnow : datetime) (task_in : TaskCreate.t)
| Update (task_id : Z) (task_update : TaskUpdate.t)
| Delete (task_id : Z)
| Get (task_id : Z)
| ListAll.

(** What a call gave back. *)
Inductive value :=
| ATask (task : Task.t)
| Tasks (tasks : list Task.t)
| NoContent.

Definition fmap {A B} (f : A -> B) (m : M A) : M B :=
  a <- m ;; ret (f a).

Definition exec (c : call) : M value :=
  match c with
  | Create utcnow task_in => fmap ATask (create_task utcnow task_in)
  | Update task_id task_update => fmap ATask (update_task task_id task_update)
  | Delete task_id => fmap (fun _ => NoContent) (delete_task task_id)
  | Get task_id => fmap ATask (get_task task_id)
  | ListAll => fmap Tasks list_tasks
  end.

(** Runs the calls one after the other on the same globals and keeps, per
    call, what it returned or raised. *)
Fixpoint run (cs : list call) (s : State)
  : list (call * result value) * State :=
  match cs with
  | [] => ([], s)
  | c :: rest =>
      let (r, s1) := exec c s in
      let (log, s2) := run rest s1 in
      ((c, r) :: log, s2)
  end.

Definition final (cs : list call) (s : State) : State := snd (run cs s).
Definition history (cs : list call) (s : State) : list (call * result value) :=
  fst (run cs s).

(** What [list_tasks()] answers in state [s]. *)
Definition listing (s : State) : list Task.t :=
  match fst (list_tasks s) with
  | Return tasks => tasks
  | Raise _ => []
  end.

(* ================================================================== *)
(** ** Reading a history *)
(* ================================================================== *)

(** The vocabulary of the specification, defined on the record of calls and
    answers alone, without looking at the store. *)
Module History.
Definition event : Type := call * result value.

(** The task a successful [create_task] returned. *)
Definition created (ev : event) : option Task.t :=
  match ev with
  | (Create _ _, Return (ATask task)) => Some task
  | _ => None
  end.

(** The task a successful [update_task] on [task_id] returned. *)
Definition updated (task_id : Z) (ev : event) : option Task.t :=
  match ev with
  | (Update k _, Return (ATask task)) =>
      if k =? task_id then Some task else None
  | _ => None
  end.

(** A successful [delete_task] on [task_id]. *)
Definition deleted (task_id : Z) (ev : event) : bool :=
  match ev with
  | (Delete k, Return _) => k =? task_id
  | _ => false
  end.

(** Tasks returned by the successful creates, oldest first. *)
Fixpoint created_tasks (log : list event) : list Task.t :=
  match log with
  | [] => []
  | ev :: rest =>
      match created ev with
      | Some task => task :: created_tasks rest
      | None => created_tasks rest
      end
  end.

Definition created_ids (log : list event) : list Z :=
  map Task.id (created_tasks log).

Definition deleted_later (task_id : Z) (log : list event) : bool :=
  existsb (deleted task_id) log.

(** The task returned by the last successful update of [task_id] in
    [log], or [task] when there is none. *)
Fixpoint latest (task_id : Z) (task : Task.t) (log : list event)
  : Task.t :=
  match log with
  | [] => task
  | ev :: rest =>
      match updated task_id ev with
      | Some task' => latest task_id task' rest
      | None => latest task_id task rest
      end
  end.

(** The listing the specification expects after [log]: one task per
    successful create whose id no later delete removed, with the values
    of the latest successful create or update of that id, in order of
    creation. *)
Fixpoint expected_listing (log : list event) : list Task.t :=
  match log with
  | [] => []
  | ev :: rest =>
      match created ev with
      | Some task =>
          if deleted_later (Task.id task) rest
          then expected_listing rest
          else latest (Task.id task) task rest :: expected_listing rest
      | None => expected_listing rest
      end
  end.

(** The ids the specification expects to be listed after [log]: those of
    the successful creates that no later successful delete removed, in
    order of creation. *)
Fixpoint surviving_ids (log : list event) : list Z :=
  match log with
  | [] => []
  | ev :: rest =>
      match created ev with
      | Some task =>
          if deleted_later (Task.id task) rest
          then surviving_ids rest
          else Task.id task :: surviving_ids rest
      | None => surviving_ids rest
      end
  end.

(** A task that is in the store before [log], seen after it. *)
Definition carried (log : list event) (task : Task.t) : option Task.t :=
  if deleted_later (Task.id task) log then None
  else Some (latest (Task.id task) task log).

Definition survivors (log : list event) (tasks : list Task.t)
  : list Task.t :=
  flat_map (fun task => match carried log task with
                        | Some task' => [task']
                        | None => []
                        end) tasks.

(** The same listing read off the payloads of the calls: the answers only
    say which calls returned. *)

(** The payload of a [create_task] that returned. *)
Definition create_of (ev : event) : option (datetime * TaskCreate.t) :=
  match ev with
  | (Create utcnow task_in, Return (ATask _)) => Some (utcnow, task_in)
  | _ => None
  end.

(** The payload of an [update_task] on [task_id] that returned. *)
Definition update_of (task_id : Z) (ev : event) : option TaskUpdate.t :=
  match ev with
  | (Update k task_update, Return (ATask _)) =>
      if k =? task_id then Some task_update else None
  | _ => None
  end.

(** The task a create payload describes: its fields, the id allocated and
    the time of creation. *)
Definition described (task_id : Z) (utcnow : datetime)
           (task_in : TaskCreate.t) : Task.t :=
  {| Task.title := TaskCreate.title task_in;
     Task.description := TaskCreate.description task_in;
     Task.status := TaskCreate.status task_in;
     Task.due_date := TaskCreate.due_date task_in;
     Task.assignee := TaskCreate.assignee task_in;
     Task.id := task_id;
     Task.created_at := utcnow |}.

(** One field after an update payload: the payload's value where the
    payload gives the field, the old value where it does not. *)
Definition patch {A} (old : A) (new : entry (option A)) : A :=
  match new with
  | Present (Some v) => v
  | _ => old
  end.

Definition patch_opt {A} (old : option A) (new : entry (option A))
  : option A :=
  match new with
  | Present v => v
  | Absent => old
  end.

(** A task after an update payload; [id] and [created_at] stay. *)
Definition patched (task : Task.t) (task_update : TaskUpdate.t) : Task.t :=
  {| Task.title := patch (Task.title task) (TaskUpdate.title task_update);
     Task.description :=
       patch_opt (Task.description task)
                 (TaskUpdate.description task_update);
     Task.status :=
       patch (Task.status task) (TaskUpdate.status task_update);
     Task.due_date :=
       patch_opt (Task.due_date task) (TaskUpdate.due_date task_update);
     Task.assignee :=
       patch_opt (Task.assignee task) (TaskUpdate.assignee task_update);
     Task.id := Task.id task;
     Task.created_at := Task.created_at task |}.

(** [task], holding the values of id [task_id], after the payloads of the
    updates of [task_id] that returned in [log], oldest first. *)
Fixpoint replay (task_id : Z) (task : Task.t) (log : list event)
  : Task.t :=
  match log with
  | [] => task
  | ev :: rest =>
      match update_of task_id ev with
      | Some task_update => replay task_id (patched task task_update) rest
      | None => replay task_id task rest
      end
  end.

(** The listing the payloads prescribe after [log], [issued] ids having
    been handed out before it: the k-th create that returned gets id k;
    it is listed unless a later delete of that id returned, with the
    fields of its payload overlaid by the payloads of the later updates
    of that id that returned; in order of creation. *)
Fixpoint described_listing (issued : Z) (log : list event)
  : list Task.t :=
  match log with
  | [] => []
  | ev :: rest =>
      match create_of ev with
      | Some (utcnow, task_in) =>
          let k := issued + 1 in
          if deleted_later k rest
          then described_listing k rest
          else replay k (described k utcnow task_in) rest
               :: described_listing k rest
      | None => described_listing issued rest
      end
  end.

(** A task that is in the store before [log], seen after it through the
    payloads. *)
Definition replayed (log : list event) (task : Task.t) : option Task.t :=
  if deleted_later (Task.id task) log then None
  else Some (replay (Task.id task) task log).

Definition replayed_all (log : list event) (tasks : list Task.t)
  : list Task.t :=
  flat_map (fun task => match replayed log task with
                        | Some task' => [task']
                        | None => []
                        end) tasks.
End History.

(* ================================================================== *)
(** ** Invariant of the store *)
(* ================================================================== *)

(** Every entry is keyed by the id of its task, no key occurs twice, the
    counter has not gone below its start, and every key has been handed
    out by it. *)
Record store_ok (s : State) : Prop := {
  ok_counter : 0 <= current_id s;
  ok_unique : PyDict.keys_unique (tasks_db s);
  ok_keyed : Forall (fun e => Task.id (snd e) = fst e) (tasks_db s);
  ok_issued : Forall (fun k => 1 <= k <= current_id s)
                     (PyDict.keys (tasks_db s))
}.

(** Ids [c+1, ..., c+n]. *)
Definition ids_from (c : Z) (n : nat) : list Z :=
  map (fun i => c + Z.of_nat i) (seq 1 n).

(** How an update shows in one field of the returned task. *)
Definition overlaid {A} (old : A) (new : entry (option A)) (now : A)
  : Prop :=
  match new with
  | Absent => now = old
  | Present v => v = Some now
  end.

Definition overlaid_opt {A} (old : option A) (new : entry (option A))
           (now : option A) : Prop :=
  match new with
  | Absent => now = old
  | Present v => now = v
  end.

(** Relative order: the elements of [l] that are also in [l'], in the
    order of [l]. *)
Definition common (l l' : list Z) : list Z :=
  filter (fun k => existsb (Z.eqb k) l') l.

Definition listed_ids (s : State) : list Z := map Task.id (listing s).

(** A run of creates only, and a run of [PUT]s only. *)
Definition creates (inputs : list (datetime * TaskCreate.t)) : list call :=
  map (fun i => Create (fst i) (snd i)) inputs.

Definition puts (updates : list (Z * Data.t)) : list call :=
  map (fun u => Update (fst u) (TaskUpdate.validate (snd u))) updates.

(** The task [create_task] builds for id [task_id]. *)
Definition new_task (task_id : Z) (utcnow : datetime)
           (task_in : TaskCreate.t) : Task.t :=
  {| Task.title := TaskCreate.title task_in;
     Task.description := TaskCreate.description task_in;
     Task.status := TaskCreate.status task_in;
     Task.due_date := TaskCreate.due_date task_in;
     Task.assignee := TaskCreate.assignee task_in;
     Task.id := task_id;
     Task.created_at := utcnow |}.

(** [updated_task_data] in [update_task]. *)
Definition merged (stored_task : Task.t) (task_update : TaskUpdate.t)
  : Data.t :=
  Data.update (Task.dict stored_task)
              (TaskUpdate.dict_exclude_unset task_update).

Definition with_tasks_db (s : State) (db : PyDict.dict Task.t) : State :=
  {| tasks_db := db; current_id := current_id s |}.

(** What one call does to the globals, by cases on its answer. *)
Inductive effect (s : State) : call -> result value -> State -> Prop :=
| effect_none c r :
    History.created (c, r) = None ->
    (forall k, History.updated k (c, r) = None) ->
    (forall k, History.deleted k (c, r) = false) ->
    effect s c r s
| effect_create utcnow task_in :
    let k := current_id s + 1 in
    let task := new_task k utcnow task_in in
    effect s (Create utcnow task_in) (Return (ATask task))
           {| tasks_db := tasks_db s ++ [(k, task)]; current_id := k |}
| effect_update k task_update stored_task task :
    PyDict.get k (tasks_db s) = Some stored_task ->
    Task.validate (merged stored_task task_update) = Return task ->
    effect s (Update k task_update) (Return (ATask task))
           (with_tasks_db s (PyDict.setitem k task (tasks_db s)))
| effect_delete k :
    PyDict.contains k (tasks_db s) = true ->
    effect s (Delete k) (Return NoContent)
           (with_tasks_db s (PyDict.delitem k (tasks_db s))).

(** Sample data: the bodies of the specification's scenarios. *)
Module Sample.
Definition noon : datetime :=
  {| on := {| year := 2025; month := 12; day := 31 |};
     hour := 12; minute := 0; second := 0; microsecond := 0 |}.

Definition later : datetime :=
  {| on := {| year := 2026; month := 1; day := 1 |};
     hour := 8; minute := 30; second := 0; microsecond := 0 |}.

Definition no_keys : Data.t :=
  {| Data.title := Absent; Data.description := Absent;
     Data.status := Absent; Data.due_date := Absent;
     Data.assignee := Absent; Data.id := Absent;
     Data.created_at := Absent |}.

Definition with_title (v : option string) (body : Data.t) : Data.t :=
  {| Data.title := Present v;
     Data.description := Data.description body;
     Data.status := Data.status body;
     Data.due_date := Data.due_date body;
     Data.assignee := Data.assignee body;
     Data.id := Data.id body;
     Data.created_at := Data.created_at body |}.

Definition with_status (v : option string) (body : Data.t) : Data.t :=
  {| Data.title := Data.title body;
     Data.description := Data.description body;
     Data.status := Present v;
     Data.due_date := Data.due_date body;
     Data.assignee := Data.assignee body;
     Data.id := Data.id body;
     Data.created_at := Data.created_at body |}.

(** A body that also gives [id] and [created_at]. *)
Definition with_id_created_at (i : Z) (c : datetime) (body : Data.t)
  : Data.t :=
  {| Data.title := Data.title body;
     Data.description := Data.description body;
     Data.status := Data.status body;
     Data.due_date := Data.due_date body;
     Data.assignee := Data.assignee body;
     Data.id := Present (Some i);
     Data.created_at := Present (Some c) |}.

(** [{"title": "Write spec"}] *)
Definition write_spec_body : Data.t :=
  with_title (Some "Write spec") no_keys.

Definition write_spec : TaskCreate.t :=
  {| TaskCreate.title := "Write spec"; TaskCreate.description := None;
     TaskCreate.status := "todo"; TaskCreate.due_date := None;
     TaskCreate.assignee := None |}.

Definition review : TaskCreate.t :=
  {| TaskCreate.title := "Review"; TaskCreate.description := Some "PR 7";
     TaskCreate.status := "in_progress"; TaskCreate.due_date := None;
     TaskCreate.assignee := Some "bharat@company.com" |}.

(** [{"status": "done"}] and [{"title": null}] *)
Definition status_done : Data.t := with_status (Some "done") no_keys.
Definition title_null : Data.t := with_title None no_keys.

(** The store after [POST /tasks] with [{"title": "Write spec"}]. *)
Definition one_task : State :=
  snd (POST_tasks noon write_spec_body initial).

(** The task that request stored. *)
Definition first_task : Task.t := new_task 1 noon write_spec.

(** That task after [PUT /tasks/1] with [{"status": "done"}]. *)
Definition done_task : Task.t :=
  {| Task.title := "Write spec"; Task.description := None;
     Task.status := "done"; Task.due_date := None;
     Task.assignee := None; Task.id := 1; Task.created_at := noon |}.

(** Two creates, and a longer mixed run. *)
Definition two_creates : list call :=
  [Create noon write_spec; Create later review].

Definition two_tasks : State := final two_creates initial.

Definition mixed : list call :=
  [Create noon write_spec;
   Create later review;
   Update 1 (TaskUpdate.validate status_done);
   Update 7 (TaskUpdate.validate status_done);
   Delete 2;
   Get 2;
   Create later write_spec;
   Update 3 (TaskUpdate.validate title_null);
   ListAll].
End Sample.

(* ================================================================== *)
(** ** Vocabulary for sequences and routes *)
(* ================================================================== *)

(** The body that gives every field [first] or [second] gives, [second]
    winning where both do. *)
Definition update_then (first second : TaskUpdate.t) : TaskUpdate.t :=
  {| TaskUpdate.title :=
       Data.over (TaskUpdate.title first) (TaskUpdate.title second);
     TaskUpdate.description :=
       Data.over (TaskUpdate.description first)
                 (TaskUpdate.description second);
     TaskUpdate.status :=
       Data.over (TaskUpdate.status first) (TaskUpdate.status second);
     TaskUpdate.due_date :=
       Data.over (TaskUpdate.due_date first) (TaskUpdate.due_date second);
     TaskUpdate.assignee :=
       Data.over (TaskUpdate.assignee first) (TaskUpdate.assignee second) |}.

Definition is_create (c : call) : bool :=
  match c with Create _ _ => true | _ => false end.

(** The two handlers that only read the globals. *)
Definition is_read (c : call) : bool :=
  match c with Get _ | ListAll => true | _ => false end.

(** A [delete_task] that returned. *)
Definition is_deletion (ev : History.event) : bool :=
  match ev with
  | (Delete _, Return _) => true
  | _ => false
  end.

(** The [status_code] of the route decorator of each handler; 200 where the
    decorator gives none. *)
Definition declared_status (c : call) : Z :=
  match c with
  | Create _ _ => 201
  | Delete _ => 204
  | Update _ _ | Get _ | ListAll => 200
  end.

(** Status code of the response to a call. *)
Definition status_of (c : call) (s : State) : Z :=
  response_status (declared_status c) (fst (exec c s)).

(* ================================================================== *)
(** ** Facts about the dictionary *)
(* ================================================================== *)

Module PyDictFacts.
Import PyDict.
Section Facts.
Variable V : Type.
Implicit Types (d : dict V) (k : Z) (v : V).

Lemma get_setitem_eq k v d : get k (setitem k v d) = Some v.
Proof.
  induction d as [|[k' v'] r IH]; simpl.
  - now rewrite Z.eqb_refl.
  - destruct (k' =? k) eqn:E; simpl; rewrite E; auto.
Qed.

Lemma get_setitem_ne k k' v d :
  k <> k' -> get k' (setitem k v d) = get k' d.
Proof.
  intros Hne. induction d as [|[k0 v0] r IH]; simpl.
  - destruct (k =? k') eqn:E; auto. apply Z.eqb_eq in E. contradiction.
  - destruct (k0 =? k) eqn:E; simpl.
    + apply Z.eqb_eq in E. subst k0.
      destruct (k =? k') eqn:E'; auto.
      apply Z.eqb_eq in E'. contradiction.
    + now rewrite IH.
Qed.

Lemma get_delitem_eq k d : get k (delitem k d) = None.
Proof.
  induction d as [|[k' v'] r IH]; simpl; auto.
  destruct (k' =? k) eqn:E; simpl; auto. now rewrite E.
Qed.

Lemma get_delitem_ne k k' d :
  k <> k' -> get k' (delitem k d) = get k' d.
Proof.
  intros Hne. induction d as [|[k0 v0] r IH]; simpl; auto.
  destruct (k0 =? k) eqn:E; simpl.
  - apply Z.eqb_eq in E. subst k0.
    destruct (k =? k') eqn:E'; auto.
    apply Z.eqb_eq in E'. contradiction.
  - now rewrite IH.
Qed.

Lemma get_Some_In k v d : get k d = Some v -> In (k, v) d.
Proof.
  induction d as [|[k' v'] r IH]; simpl; [discriminate|].
  destruct (k' =? k) eqn:E; intros H.
  - apply Z.eqb_eq in E. inversion H. subst. now left.
  - right. auto.
Qed.

Lemma get_None_keys k d : get k d = None <-> ~ In k (keys d).
Proof.
  induction d as [|[k' v'] r IH]; simpl.
  - tauto.
  - destruct (k' =? k) eqn:E.
    + apply Z.eqb_eq in E. split; [discriminate | intros H; tauto].
    + apply Z.eqb_neq in E. rewrite IH. tauto.
Qed.

Lemma contains_keys k d : contains k d = true <-> In k (keys d).
Proof.
  unfold contains. destruct (get k d) eqn:E.
  - split; auto. intros _.
    apply get_Some_In in E. apply (in_map fst) in E. exact E.
  - apply get_None_keys in E. split; [discriminate | contradiction].
Qed.

(** Storing what is already stored changes nothing. *)
Lemma setitem_same k v d : get k d = Some v -> setitem k v d = d.
Proof.
  induction d as [|[k' v'] r IH]; simpl; [discriminate|].
  destruct (k' =? k) eqn:E; intros H.
  - now inversion H.
  - now rewrite IH.
Qed.

(** A new key goes to the end. *)
Lemma setitem_absent k v d :
  get k d = None -> setitem k v d = d ++ [(k, v)].
Proof.
  induction d as [|[k' v'] r IH]; simpl; auto.
  destruct (k' =? k); [discriminate|]. intros H. now rewrite IH.
Qed.

(** An existing key keeps its place. *)
Lemma keys_setitem_present k v d :
  contains k d = true -> keys (setitem k v d) = keys d.
Proof.
  unfold contains.
  induction d as [|[k' v'] r IH]; simpl; [discriminate|].
  destruct (k' =? k) eqn:E; simpl; auto.
  intros H. now rewrite IH.
Qed.

(** With unique keys, overwriting [k] is a pointwise replacement. *)
Lemma setitem_present_map k v d :
  keys_unique d -> contains k d = true ->
  setitem k v d = map (fun e => if fst e =? k then (fst e, v) else e) d.
Proof.
  unfold keys_unique, contains.
  induction d as [|[k' v'] r IH]; simpl; [discriminate|].
  intros Hnd Hin. inversion Hnd as [|? ? Hnot Hnd']; subst.
  destruct (k' =? k) eqn:E.
  - f_equal. apply Z.eqb_eq in E. subst k'.
    clear - Hnot. induction r as [|[k0 v0] r IH]; simpl; auto.
    simpl in Hnot. destruct (k0 =? k) eqn:E0.
    + apply Z.eqb_eq in E0. tauto.
    + f_equal. apply IH. tauto.
  - f_equal. apply IH; auto.
Qed.

Lemma keys_delitem k d :
  keys (delitem k d) = filter (fun k' => negb (k' =? k)) (keys d).
Proof.
  induction d as [|[k' v'] r IH]; simpl; auto.
  destruct (k' =? k); simpl; now rewrite IH.
Qed.

Lemma In_delitem k d e :
  In e (delitem k d) <-> In e d /\ fst e <> k.
Proof.
  unfold delitem. rewrite filter_In, negb_true_iff, Z.eqb_neq. tauto.
Qed.

Lemma delitem_unique k d : keys_unique d -> keys_unique (delitem k d).
Proof.
  unfold keys_unique. rewrite keys_delitem. apply NoDup_filter.
Qed.

(** With unique keys, deleting a present key removes one entry. *)
Lemma length_delitem k d :
  keys_unique d -> contains k d = true ->
  List.length d = S (List.length (delitem k d)).
Proof.
  unfold keys_unique, contains.
  induction d as [|[k' v'] r IH]; simpl; [discriminate|].
  intros Hnd Hin. inversion Hnd as [|? ? Hnot Hnd']; subst.
  destruct (k' =? k) eqn:E; simpl.
  - f_equal. apply Z.eqb_eq in E. subst k'.
    clear - Hnot. induction r as [|[k0 v0] r IH]; simpl; auto.
    simpl in Hnot. destruct (k0 =? k) eqn:E0; simpl.
    + apply Z.eqb_eq in E0. tauto.
    + f_equal. apply IH. tauto.
  - f_equal. apply IH; auto.
Qed.
End Facts.
End PyDictFacts.

(* ================================================================== *)
(** ** The handlers, equation by equation *)
(* ================================================================== *)

Lemma state_eta s :
  {| tasks_db := tasks_db s; current_id := current_id s |} = s.
Proof. now destruct s. Qed.

Lemma listing_values s : listing s = PyDict.values (tasks_db s).
Proof. reflexivity. Qed.

Lemma list_tasks_eq s : list_tasks s = (Return (listing s), s).
Proof. reflexivity. Qed.

Lemma create_task_eq utcnow task_in s :
  create_task utcnow task_in s =
  (Return (new_task (current_id s + 1) utcnow task_in),
   {| tasks_db := PyDict.setitem (current_id s + 1)
                    (new_task (current_id s + 1) utcnow task_in)
                    (tasks_db s);
      current_id := current_id s + 1 |}).
Proof. reflexivity. Qed.

Lemma get_task_found k s task :
  PyDict.get k (tasks_db s) = Some task -> get_task k s = (Return task, s).
Proof. unfold get_task, bind, read_tasks_db. intros ->. reflexivity. Qed.

Lemma get_task_missing k s :
  PyDict.get k (tasks_db s) = None ->
  get_task k s = (Raise (HTTPException 404 "Task not found"), s).
Proof. unfold get_task, bind, read_tasks_db. intros ->. reflexivity. Qed.

Lemma update_task_missing k u s :
  PyDict.get k (tasks_db s) = None ->
  update_task k u s = (Raise (HTTPException 404 "Task not found"), s).
Proof. unfold update_task, bind, read_tasks_db. intros ->. reflexivity. Qed.

Lemma update_task_found k u s stored_task :
  PyDict.get k (tasks_db s) = Some stored_task ->
  update_task k u s =
  match Task.validate (merged stored_task u) with
  | Return task =>
      (Return task, with_tasks_db s (PyDict.setitem k task (tasks_db s)))
  | Raise e => (Raise e, s)
  end.
Proof.
  unfold update_task, bind, read_tasks_db, lift, merged. intros ->.
  destruct (Task.validate _); reflexivity.
Qed.

Lemma delete_task_found k s :
  PyDict.contains k (tasks_db s) = true ->
  delete_task k s =
  (Return tt, with_tasks_db s (PyDict.delitem k (tasks_db s))).
Proof. unfold delete_task, bind, read_tasks_db. intros ->. reflexivity. Qed.

Lemma delete_task_missing k s :
  PyDict.contains k (tasks_db s) = false ->
  delete_task k s = (Raise (HTTPException 404 "Task not found"), s).
Proof. unfold delete_task, bind, read_tasks_db. intros ->. reflexivity. Qed.

(** Validation of the merged data: it can only fail on [title] or
    [status] set to [None], and what it builds is the overlay. *)
Lemma validate_merged_raises stored_task u :
  TaskUpdate.title u = Present None \/ TaskUpdate.status u = Present None ->
  exists errs,
    Task.validate (merged stored_task u) = Raise (ValidationError errs).
Proof.
  destruct u as [ti de st du a]. simpl.
  intros [-> | ->].
  - destruct st as [|[|]]; destruct de, du, a; cbn; eauto.
  - destruct ti as [|[|]]; destruct de, du, a; cbn; eauto.
Qed.

Lemma validate_merged_returns stored_task u :
  TaskUpdate.title u <> Present None ->
  TaskUpdate.status u <> Present None ->
  exists task, Task.validate (merged stored_task u) = Return task.
Proof.
  destruct u as [ti de st du a]. simpl. intros Ht Hs.
  destruct ti as [|[|]]; try congruence;
    destruct st as [|[|]]; try congruence;
    destruct de, du, a; cbn; eauto.
Qed.

Lemma validate_merged_overlay stored_task u task :
  Task.validate (merged stored_task u) = Return task ->
  overlaid (Task.title stored_task) (TaskUpdate.title u) (Task.title task)
  /\ overlaid_opt (Task.description stored_task) (TaskUpdate.description u)
                  (Task.description task)
  /\ overlaid (Task.status stored_task) (TaskUpdate.status u)
              (Task.status task)
  /\ overlaid_opt (Task.due_date stored_task) (TaskUpdate.due_date u)
                  (Task.due_date task)
  /\ overlaid_opt (Task.assignee stored_task) (TaskUpdate.assignee u)
                  (Task.assignee task)
  /\ Task.id task = Task.id stored_task
  /\ Task.created_at task = Task.created_at stored_task.
Proof.
  destruct u as [ti de st du a].
  destruct ti as [|[|]], st as [|[|]], de, du, a; cbn;
    intros H; inversion H; subst; cbn; repeat split; reflexivity.
Qed.

Lemma validate_merged_empty stored_task :
  Task.validate (merged stored_task TaskUpdate.empty) = Return stored_task.
Proof. now destruct stored_task. Qed.

(* ================================================================== *)
(** ** One step: effect and invariant *)
(* ================================================================== *)

Lemma initial_ok : store_ok initial.
Proof. split; simpl; try constructor. lia. Qed.

(** A key the counter has not reached is not in the store. *)
Lemma next_id_fresh s :
  store_ok s -> PyDict.get (current_id s + 1) (tasks_db s) = None.
Proof.
  intros [_ _ _ Hi]. apply PyDictFacts.get_None_keys. intros Hin.
  rewrite Forall_forall in Hi. apply Hi in Hin. lia.
Qed.

Lemma stored_id s k task :
  store_ok s -> PyDict.get k (tasks_db s) = Some task -> Task.id task = k.
Proof.
  intros [_ _ Hk _] Hget. apply PyDictFacts.get_Some_In in Hget.
  rewrite Forall_forall in Hk. exact (Hk _ Hget).
Qed.

Lemma exec_effect c s :
  store_ok s -> effect s c (fst (exec c s)) (snd (exec c s)).
Proof.
  intros Hok. destruct c as [now tin | k u | k | k |]; unfold exec, fmap, bind.
  - rewrite create_task_eq. simpl.
    rewrite PyDictFacts.setitem_absent by now apply next_id_fresh.
    apply effect_create.
  - destruct (PyDict.get k (tasks_db s)) as [stored|] eqn:Hget.
    + rewrite (update_task_found k u s Hget).
      destruct (Task.validate (merged stored u)) as [task|e] eqn:Hv; simpl.
      * eapply effect_update; eauto.
      * now apply effect_none.
    + rewrite (update_task_missing k u s Hget). now apply effect_none.
  - destruct (PyDict.contains k (tasks_db s)) eqn:Hin.
    + rewrite (delete_task_found k s Hin). simpl. now apply effect_delete.
    + rewrite (delete_task_missing k s Hin). now apply effect_none.
  - destruct (PyDict.get k (tasks_db s)) as [task|] eqn:Hget.
    + rewrite (get_task_found k s Hget). now apply effect_none.
    + rewrite (get_task_missing k s Hget). now apply effect_none.
  - rewrite list_tasks_eq. now apply effect_none.
Qed.

Lemma effect_ok s c r s' : store_ok s -> effect s c r s' -> store_ok s'.
Proof.
  intros Hok He. pose proof Hok as [Hc Hu Hk Hi].
  destruct He as [c r _ _ _ | now tin | k u stored task Hget Hv | k Hin];
    auto.
  - (* create *)
    pose proof (next_id_fresh Hok) as Hfresh.
    apply PyDictFacts.get_None_keys in Hfresh.
    split; simpl.
    + lia.
    + unfold PyDict.keys_unique, PyDict.keys in *. rewrite map_app. simpl.
      apply NoDup_app; repeat split; auto.
      * constructor; [intros [] | constructor].
      * intros x Hx [<- | []]. contradiction.
    + apply Forall_app. split; auto.
    + unfold PyDict.keys in *. rewrite map_app. apply Forall_app. split.
      * eapply Forall_impl; [|exact Hi]. simpl. intros; lia.
      * constructor; [|constructor]. simpl. lia.
  - (* update *)
    assert (Hin : PyDict.contains k (tasks_db s) = true)
      by (unfold PyDict.contains; now rewrite Hget).
    pose proof (stored_id _ Hok Hget) as Hid.
    apply validate_merged_overlay in Hv.
    destruct Hv as (_ & _ & _ & _ & _ & Hid' & _).
    split; simpl.
    + exact Hc.
    + unfold PyDict.keys_unique.
      now rewrite PyDictFacts.keys_setitem_present.
    + rewrite PyDictFacts.setitem_present_map by auto.
      rewrite Forall_forall in *. intros e He.
      apply in_map_iff in He. destruct He as (e0 & <- & He0).
      destruct (fst e0 =? k) eqn:E; simpl; auto.
      apply Z.eqb_eq in E. congruence.
    + now rewrite PyDictFacts.keys_setitem_present.
  - (* delete *)
    split; simpl.
    + exact Hc.
    + now apply PyDictFacts.delitem_unique.
    + rewrite Forall_forall in *. intros e He.
      apply PyDictFacts.In_delitem in He. now apply Hk.
    + rewrite PyDictFacts.keys_delitem.
      rewrite Forall_forall in *. intros x Hx.
      apply filter_In in Hx. now apply Hi.
Qed.

(* ================================================================== *)
(** ** Sequences: unfolding, invariant, splitting *)
(* ================================================================== *)

Lemma history_cons c cs s :
  history (c :: cs) s = (c, fst (exec c s)) :: history cs (snd (exec c s)).
Proof.
  unfold history. simpl. destruct (exec c s) as [r s1]. simpl.
  now destruct (run cs s1).
Qed.

Lemma final_cons c cs s : final (c :: cs) s = final cs (snd (exec c s)).
Proof.
  unfold final. simpl. destruct (exec c s) as [r s1]. simpl.
  now destruct (run cs s1).
Qed.

Lemma exec_ok c s : store_ok s -> store_ok (snd (exec c s)).
Proof. intros Hok. eapply effect_ok; [exact Hok | now apply exec_effect]. Qed.

Lemma final_ok cs : forall s, store_ok s -> store_ok (final cs s).
Proof.
  induction cs as [|c cs IH]; intros s Hok; [exact Hok|].
  rewrite final_cons. apply IH. now apply exec_ok.
Qed.

(** An event of a history comes from one call of the sequence, run in the
    state the calls before it left. *)
Lemma history_split cs : forall s h1 ev h2,
  history cs s = h1 ++ ev :: h2 ->
  exists cs1 c cs2,
    cs = cs1 ++ c :: cs2
    /\ ev = (c, fst (exec c (final cs1 s)))
    /\ h2 = history cs2 (snd (exec c (final cs1 s))).
Proof.
  induction cs as [|c cs IH]; intros s h1 ev h2 H.
  - destruct h1; discriminate.
  - rewrite history_cons in H. destruct h1 as [|e1 h1]; simpl in H.
    + inversion H; subst. exists [], c, cs. auto.
    + inversion H as [[He1 Hrest]].
      destruct (IH _ _ _ _ Hrest) as (cs1 & c' & cs2 & -> & -> & ->).
      exists (c :: cs1), c', cs2. rewrite !final_cons. auto.
Qed.

(** Only a create moves the counter, by one, and its task gets the new
    value as id. *)
Lemma exec_created c s :
  match History.created (c, fst (exec c s)) with
  | Some task =>
      Task.id task = current_id s + 1
      /\ current_id (snd (exec c s)) = current_id s + 1
  | None => current_id (snd (exec c s)) = current_id s
  end.
Proof.
  destruct c as [now tin | k u | k | k |]; unfold exec, fmap, bind.
  - rewrite create_task_eq. simpl. auto.
  - destruct (PyDict.get k (tasks_db s)) as [stored|] eqn:Hget.
    + rewrite (update_task_found k u s Hget).
      now destruct (Task.validate (merged stored u)).
    + now rewrite (update_task_missing k u s Hget).
  - destruct (PyDict.contains k (tasks_db s)) eqn:Hin.
    + now rewrite (delete_task_found k s Hin).
    + now rewrite (delete_task_missing k s Hin).
  - destruct (PyDict.get k (tasks_db s)) as [task|] eqn:Hget.
    + now rewrite (get_task_found k s Hget).
    + now rewrite (get_task_missing k s Hget).
  - now rewrite list_tasks_eq.
Qed.

(** The counter never decreases. *)
Lemma exec_counter c s : current_id s <= current_id (snd (exec c s)).
Proof.
  pose proof (exec_created c s) as H.
  destruct (History.created _); lia.
Qed.

Lemma final_counter cs : forall s, current_id s <= current_id (final cs s).
Proof.
  induction cs as [|c cs IH]; intros s; [unfold final; simpl; lia|].
  rewrite final_cons. pose proof (exec_counter c s).
  specialize (IH (snd (exec c s))). lia.
Qed.

Lemma ids_from_S c n : ids_from c (S n) = (c + 1) :: ids_from (c + 1) n.
Proof.
  unfold ids_from. cbn [seq map]. f_equal.
  rewrite <- seq_shift, !map_map. apply map_ext. intros i. lia.
Qed.

(** Ids handed out by a run are those that follow the counter. *)
Lemma created_ids_run cs : forall s,
  let n := List.length (History.created_tasks (history cs s)) in
  History.created_ids (history cs s) = ids_from (current_id s) n
  /\ current_id (final cs s) = current_id s + Z.of_nat n.
Proof.
  unfold History.created_ids.
  induction cs as [|c cs IH]; intros s.
  - unfold final. simpl. split; [reflexivity | lia].
  - rewrite history_cons, final_cons.
    specialize (IH (snd (exec c s))). destruct IH as [IHids IHc].
    pose proof (exec_created c s) as Hc.
    cbn [History.created_tasks].
    destruct (History.created (c, fst (exec c s))) as [task|].
    + destruct Hc as [Hid Hc]. cbn [map List.length].
      rewrite ids_from_S, IHids, IHc, Hid, Hc. split; [reflexivity | lia].
    + rewrite IHids, IHc, Hc. auto.
Qed.

(* ================================================================== *)
(** ** The listing along a history *)
(* ================================================================== *)

Module HistoryFacts.
Import History.

Lemma carried_nil task : carried [] task = Some task.
Proof. reflexivity. Qed.

Lemma survivors_nil tasks : survivors [] tasks = tasks.
Proof.
  unfold survivors. induction tasks as [|t r IH]; [reflexivity|].
  cbn [flat_map]. now rewrite IH.
Qed.

Lemma survivors_app log l1 l2 :
  survivors log (l1 ++ l2) = survivors log l1 ++ survivors log l2.
Proof. apply flat_map_app. Qed.

(** An event that created, updated and deleted nothing is invisible. *)
Lemma carried_silent ev log task :
  (forall k, updated k ev = None) ->
  (forall k, deleted k ev = false) ->
  carried (ev :: log) task = carried log task.
Proof.
  intros Hu Hd. unfold carried, deleted_later.
  cbn [existsb latest]. now rewrite Hu, Hd.
Qed.

Lemma carried_created utcnow task_in r log task :
  carried ((Create utcnow task_in, r) :: log) task = carried log task.
Proof. apply carried_silent; intros k; reflexivity. Qed.

Lemma survivors_silent ev log tasks :
  (forall k, updated k ev = None) ->
  (forall k, deleted k ev = false) ->
  survivors (ev :: log) tasks = survivors log tasks.
Proof.
  intros Hu Hd. unfold survivors. apply flat_map_ext. intros t.
  now rewrite carried_silent.
Qed.

Lemma survivors_created utcnow task_in r log tasks :
  survivors ((Create utcnow task_in, r) :: log) tasks = survivors log tasks.
Proof. apply survivors_silent; intros k; reflexivity. Qed.

Lemma carried_updated k u task' log task :
  Task.id task' = k ->
  carried ((Update k u, Return (ATask task')) :: log) task =
  carried log (if Task.id task =? k then task' else task).
Proof.
  intros Hid. unfold carried, deleted_later.
  cbn [existsb latest updated deleted].
  rewrite (Z.eqb_sym k). destruct (Task.id task =? k) eqn:E; simpl.
  - apply Z.eqb_eq in E. now rewrite Hid, E.
  - reflexivity.
Qed.

Lemma carried_deleted k r log task :
  carried ((Delete k, Return r) :: log) task =
  if Task.id task =? k then None else carried log task.
Proof.
  unfold carried, deleted_later. cbn [existsb latest updated deleted].
  rewrite (Z.eqb_sym k). now destruct (Task.id task =? k).
Qed.

Lemma survivors_ext log log' (f : Task.t -> Task.t) tasks :
  (forall task, carried log' task = carried log (f task)) ->
  survivors log' tasks = survivors log (map f tasks).
Proof.
  intros H. unfold survivors. induction tasks as [|t r IH]; [reflexivity|].
  cbn [flat_map map]. now rewrite IH, H.
Qed.

Lemma survivors_filter k r log tasks :
  survivors ((Delete k, Return r) :: log) tasks =
  survivors log (filter (fun task => negb (Task.id task =? k)) tasks).
Proof.
  unfold survivors. induction tasks as [|t rest IH]; [reflexivity|].
  cbn [flat_map filter]. rewrite carried_deleted, IH.
  now destruct (Task.id t =? k).
Qed.
End HistoryFacts.

(** The values of the dictionary after overwriting and after deleting, for
    entries keyed by their task's id. *)
Lemma values_setitem_keyed (db : PyDict.dict Task.t) k task :
  PyDict.keys_unique db ->
  Forall (fun e => Task.id (snd e) = fst e) db ->
  PyDict.contains k db = true ->
  PyDict.values (PyDict.setitem k task db) =
  map (fun t => if Task.id t =? k then task else t) (PyDict.values db).
Proof.
  intros Hu Hk Hin. rewrite PyDictFacts.setitem_present_map by auto.
  unfold PyDict.values. rewrite !map_map.
  apply map_ext_in. intros e He.
  rewrite Forall_forall in Hk. rewrite (Hk e He).
  now destruct (fst e =? k).
Qed.

Lemma values_delitem_keyed (db : PyDict.dict Task.t) k :
  Forall (fun e => Task.id (snd e) = fst e) db ->
  PyDict.values (PyDict.delitem k db) =
  filter (fun t => negb (Task.id t =? k)) (PyDict.values db).
Proof.
  intros Hk. unfold PyDict.values, PyDict.delitem.
  induction db as [|e r IH]; simpl; auto.
  inversion Hk as [|? ? He Hr]; subst. rewrite He.
  destruct (fst e =? k); simpl; now rewrite IH.
Qed.

(** A listed task is what the dictionary holds under its id. *)
Lemma listed_get s task :
  store_ok s -> In task (listing s) ->
  PyDict.get (Task.id task) (tasks_db s) = Some task.
Proof.
  intros [_ Hu Hk _] Hin. rewrite listing_values in Hin.
  unfold PyDict.values in Hin. apply in_map_iff in Hin.
  destruct Hin as ([k t] & Ht & He). simpl in Ht. subst t.
  rewrite Forall_forall in Hk. pose proof (Hk _ He) as Hid.
  simpl in Hid. rewrite Hid. clear Hid.
  unfold PyDict.keys_unique, PyDict.keys in Hu.
  induction (tasks_db s) as [|[k0 v0] r IH]; [destruct He|].
  simpl in Hu. inversion Hu as [|? ? Hnot Hnd]; subst. simpl.
  destruct He as [He | He].
  - inversion He; subst. now rewrite Z.eqb_refl.
  - destruct (k0 =? k) eqn:E.
    + apply Z.eqb_eq in E. subst k0. apply (in_map fst) in He.
      contradiction.
    + apply IH; auto. intros e He'. apply Hk. now right.
Qed.

(** One call, seen from the listing. *)
Lemma effect_listing s c r s' log :
  store_ok s -> effect s c r s' ->
  History.survivors log (listing s') ++ History.expected_listing log =
  History.survivors ((c, r) :: log) (listing s)
  ++ History.expected_listing ((c, r) :: log).
Proof.
  intros Hok He. pose proof Hok as [Hc Hu Hk Hi].
  destruct He as [c r Hcr Hup Hdel | now tin | k u stored task Hget Hv | k Hin].
  - cbn [History.expected_listing]. rewrite Hcr.
    now rewrite HistoryFacts.survivors_silent.
  - rewrite HistoryFacts.survivors_created.
    rewrite !listing_values. cbn [tasks_db]. unfold PyDict.values.
    rewrite map_app, HistoryFacts.survivors_app, <- app_assoc.
    apply f_equal.
    cbn [History.expected_listing History.created map snd].
    unfold History.survivors, History.carried. cbn [flat_map].
    subst task. cbn [Task.id new_task].
    now destruct (History.deleted_later _ log).
  - assert (Hin : PyDict.contains k (tasks_db s) = true)
      by (unfold PyDict.contains; now rewrite Hget).
    assert (Hid : Task.id task = k).
    { apply validate_merged_overlay in Hv.
      destruct Hv as (_ & _ & _ & _ & _ & -> & _).
      exact (stored_id _ Hok Hget). }
    cbn [History.expected_listing History.created].
    apply (f_equal (fun l => l ++ History.expected_listing log)).
    rewrite !listing_values. cbn [tasks_db with_tasks_db].
    rewrite values_setitem_keyed by auto.
    symmetry. apply HistoryFacts.survivors_ext. intros t.
    now apply HistoryFacts.carried_updated.
  - cbn [History.expected_listing History.created].
    apply (f_equal (fun l => l ++ History.expected_listing log)).
    rewrite !listing_values. cbn [tasks_db with_tasks_db].
    rewrite values_delitem_keyed by auto.
    symmetry. apply HistoryFacts.survivors_filter.
Qed.

Lemma listing_run cs : forall s,
  store_ok s ->
  listing (final cs s) =
  History.survivors (history cs s) (listing s)
  ++ History.expected_listing (history cs s).
Proof.
  induction cs as [|c cs IH]; intros s Hok.
  - unfold final, history. simpl.
    now rewrite HistoryFacts.survivors_nil, app_nil_r.
  - rewrite final_cons, history_cons, (IH _ (exec_ok c Hok)).
    apply effect_listing; [exact Hok | now apply exec_effect].
Qed.

(* ================================================================== *)
(** ** Ids handed out by the counter *)
(* ================================================================== *)

Lemma ids_from_zero n : ids_from 0 n = map Z.of_nat (seq 1 n).
Proof. unfold ids_from. apply map_ext. intros i. lia. Qed.

Lemma ids_from_bounds n : forall c x,
  In x (ids_from c n) -> c < x <= c + Z.of_nat n.
Proof.
  induction n as [|n IH]; intros c x Hin; [destruct Hin|].
  rewrite ids_from_S in Hin. destruct Hin as [<- | Hin]; [lia|].
  apply IH in Hin. lia.
Qed.

Lemma ids_from_NoDup n : forall c, NoDup (ids_from c n).
Proof.
  induction n as [|n IH]; intros c; [constructor|].
  rewrite ids_from_S. constructor; [|apply IH].
  intros Hin. apply ids_from_bounds in Hin. lia.
Qed.

Lemma ids_from_sorted n : forall c, StronglySorted Z.lt (ids_from c n).
Proof.
  induction n as [|n IH]; intros c; [constructor|].
  rewrite ids_from_S. constructor; [apply IH|].
  apply Forall_forall. intros x Hin. apply ids_from_bounds in Hin. lia.
Qed.

Lemma ids_from_nth n : forall c i,
  (i < n)%nat -> nth_error (ids_from c n) i = Some (c + Z.of_nat i + 1).
Proof.
  induction n as [|n IH]; intros c i Hi; [lia|].
  rewrite ids_from_S. destruct i as [|i]; simpl.
  - f_equal. lia.
  - rewrite IH by lia. f_equal. lia.
Qed.

(** In a run of creates only, every call returns a task. *)
Lemma creates_all_return inputs : forall s,
  Forall (fun ev => exists task, snd ev = Return (ATask task))
         (history (creates inputs) s)
  /\ List.length (History.created_tasks (history (creates inputs) s))
     = List.length inputs.
Proof.
  induction inputs as [|[now tin] rest IH]; intros s.
  - split; [constructor | reflexivity].
  - unfold creates in *. cbn [map fst snd]. rewrite history_cons.
    destruct (IH (snd (exec (Create now tin) s))) as [IHa IHl].
    unfold exec at 1 3, fmap, bind. rewrite create_task_eq.
    cbn [fst snd ret History.created_tasks History.created List.length].
    split.
    + constructor; [simpl; eauto | exact IHa].
    + now rewrite IHl.
Qed.

(** An update returns a task with the id it was called on. *)
Lemma effect_updated_id s c r s' k task :
  store_ok s -> effect s c r s' ->
  History.updated k (c, r) = Some task -> Task.id task = k.
Proof.
  intros Hok He Hup.
  destruct He as [c r _ Hnone _ | now tin | k0 u stored task0 Hget Hv | k0 Hin].
  - rewrite Hnone in Hup. discriminate.
  - discriminate.
  - simpl in Hup. destruct (k0 =? k) eqn:E; [|discriminate].
    apply Z.eqb_eq in E. inversion Hup. subst.
    apply validate_merged_overlay in Hv.
    destruct Hv as (_ & _ & _ & _ & _ & -> & _).
    exact (stored_id _ Hok Hget).
  - discriminate.
Qed.

Lemma history_updated_ids cs : forall s,
  store_ok s ->
  Forall (fun ev => forall k task,
            History.updated k ev = Some task -> Task.id task = k)
         (history cs s).
Proof.
  induction cs as [|c cs IH]; intros s Hok; [constructor|].
  rewrite history_cons. constructor.
  - intros k task. eapply effect_updated_id; [exact Hok|].
    now apply exec_effect.
  - apply IH. now apply exec_ok.
Qed.

Lemma latest_id log : forall k task,
  Forall (fun ev => forall k task,
            History.updated k ev = Some task -> Task.id task = k) log ->
  Task.id task = k -> Task.id (History.latest k task log) = k.
Proof.
  induction log as [|ev log IH]; intros k task Hall Hid; [exact Hid|].
  inversion Hall as [|? ? Hev Hrest]; subst.
  cbn [History.latest].
  destruct (History.updated (Task.id task) ev) as [task'|] eqn:E.
  - apply IH; auto.
  - now apply IH.
Qed.

Lemma expected_listing_ids log :
  Forall (fun ev => forall k task,
            History.updated k ev = Some task -> Task.id task = k) log ->
  map Task.id (History.expected_listing log) = History.surviving_ids log.
Proof.
  induction log as [|ev log IH]; intros Hall; [reflexivity|].
  inversion Hall as [|? ? Hev Hrest]; subst.
  cbn [History.expected_listing History.surviving_ids].
  destruct (History.created ev) as [task|]; [|now apply IH].
  destruct (History.deleted_later (Task.id task) log); [now apply IH|].
  cbn [map]. rewrite IH by exact Hrest. f_equal.
  now apply latest_id.
Qed.

(* ================================================================== *)
(** ** The listing along the payloads of a history *)
(* ================================================================== *)

(** What [update_task] builds is the stored task with the payload
    overlaid. *)
Lemma validate_merged_patched stored_task u task :
  Task.validate (merged stored_task u) = Return task ->
  task = History.patched stored_task u.
Proof.
  destruct u as [ti de st du a].
  destruct ti as [|[|]], st as [|[|]], de, du, a; cbn;
    intros H; inversion H; reflexivity.
Qed.

Module PayloadFacts.
Import History.

Lemma update_of_none k ev : updated k ev = None -> update_of k ev = None.
Proof.
  destruct ev as [c r]. destruct c; try reflexivity.
  destruct r as [[]|]; simpl; try reflexivity.
  now destruct (_ =? _).
Qed.

Lemma create_of_none ev : created ev = None -> create_of ev = None.
Proof.
  destruct ev as [c r]. destruct c; try reflexivity.
  destruct r as [[]|]; simpl; try reflexivity. discriminate.
Qed.

Lemma replayed_all_nil tasks : replayed_all [] tasks = tasks.
Proof.
  unfold replayed_all. induction tasks as [|t r IH]; [reflexivity|].
  cbn [flat_map]. now rewrite IH.
Qed.

Lemma replayed_all_app log l1 l2 :
  replayed_all log (l1 ++ l2) = replayed_all log l1 ++ replayed_all log l2.
Proof. apply flat_map_app. Qed.

Lemma replayed_silent ev log task :
  (forall k, updated k ev = None) ->
  (forall k, deleted k ev = false) ->
  replayed (ev :: log) task = replayed log task.
Proof.
  intros Hu Hd. unfold replayed, deleted_later.
  cbn [existsb replay]. now rewrite (update_of_none _ _ (Hu _)), Hd.
Qed.

Lemma replayed_all_silent ev log tasks :
  (forall k, updated k ev = None) ->
  (forall k, deleted k ev = false) ->
  replayed_all (ev :: log) tasks = replayed_all log tasks.
Proof.
  intros Hu Hd. unfold replayed_all. apply flat_map_ext. intros t.
  now rewrite replayed_silent.
Qed.

Lemma replayed_updated k u task' log task :
  replayed ((Update k u, Return (ATask task')) :: log) task =
  replayed log (if Task.id task =? k then patched task u else task).
Proof.
  unfold replayed, deleted_later.
  cbn [existsb replay update_of deleted].
  rewrite (Z.eqb_sym k). now destruct (Task.id task =? k).
Qed.

Lemma replayed_deleted k r log task :
  replayed ((Delete k, Return r) :: log) task =
  if Task.id task =? k then None else replayed log task.
Proof.
  unfold replayed, deleted_later.
  cbn [existsb replay update_of deleted].
  rewrite (Z.eqb_sym k). now destruct (Task.id task =? k).
Qed.

Lemma replayed_all_map log log' (f : Task.t -> Task.t) tasks :
  (forall task, In task tasks -> replayed log' task = replayed log (f task)) ->
  replayed_all log' tasks = replayed_all log (map f tasks).
Proof.
  unfold replayed_all. induction tasks as [|t r IH]; intros H;
    [reflexivity|].
  cbn [flat_map map]. rewrite IH, H; auto.
  - now left.
  - intros task Hin. apply H. now right.
Qed.

Lemma replayed_all_filter k r log tasks :
  replayed_all ((Delete k, Return r) :: log) tasks =
  replayed_all log (filter (fun task => negb (Task.id task =? k)) tasks).
Proof.
  unfold replayed_all. induction tasks as [|t rest IH]; [reflexivity|].
  cbn [flat_map filter]. rewrite replayed_deleted, IH.
  now destruct (Task.id t =? k).
Qed.
End PayloadFacts.

(** One call, seen from the listing the payloads prescribe. *)
Lemma effect_described s c r s' log :
  store_ok s -> effect s c r s' ->
  History.replayed_all log (listing s')
  ++ History.described_listing (current_id s') log =
  History.replayed_all ((c, r) :: log) (listing s)
  ++ History.described_listing (current_id s) ((c, r) :: log).
Proof.
  intros Hok He. pose proof Hok as [Hc Hu Hk Hi].
  destruct He as [c r Hcr Hup Hdel | now tin | k u stored task Hget Hv | k Hin].
  - cbn [History.described_listing].
    rewrite (PayloadFacts.create_of_none _ Hcr).
    now rewrite PayloadFacts.replayed_all_silent.
  - rewrite PayloadFacts.replayed_all_silent by (intros; reflexivity).
    rewrite !listing_values. cbn [tasks_db current_id].
    unfold PyDict.values.
    rewrite map_app, PayloadFacts.replayed_all_app, <- app_assoc.
    apply f_equal.
    cbn [History.described_listing History.create_of map snd].
    unfold History.replayed_all, History.replayed. cbn [flat_map].
    subst task. cbn [Task.id new_task]. cbn zeta.
    change (new_task k now tin) with (History.described k now tin).
    subst k. now destruct (History.deleted_later _ log).
  - assert (Hin : PyDict.contains k (tasks_db s) = true)
      by (unfold PyDict.contains; now rewrite Hget).
    apply validate_merged_patched in Hv. subst task.
    cbn [History.described_listing History.create_of].
    cbn [current_id with_tasks_db].
    apply (f_equal (fun l => l ++ History.described_listing
                                   (current_id s) log)).
    rewrite (listing_values (with_tasks_db s _)).
    cbn [tasks_db with_tasks_db].
    rewrite values_setitem_keyed by auto.
    rewrite <- listing_values.
    symmetry. apply PayloadFacts.replayed_all_map. intros t Ht.
    rewrite PayloadFacts.replayed_updated.
    destruct (Task.id t =? k) eqn:E; [|reflexivity].
    apply Z.eqb_eq in E. pose proof (@listed_get s t Hok Ht) as Hget'.
    rewrite E, Hget in Hget'. now inversion Hget'.
  - cbn [History.described_listing History.create_of].
    cbn [current_id with_tasks_db].
    apply (f_equal (fun l => l ++ History.described_listing
                                   (current_id s) log)).
    rewrite !listing_values. cbn [tasks_db with_tasks_db].
    rewrite values_delitem_keyed by auto.
    symmetry. apply PayloadFacts.replayed_all_filter.
Qed.

Lemma described_run cs : forall s,
  store_ok s ->
  listing (final cs s) =
  History.replayed_all (history cs s) (listing s)
  ++ History.described_listing (current_id s) (history cs s).
Proof.
  induction cs as [|c cs IH]; intros s Hok.
  - unfold final, history. simpl.
    now rewrite PayloadFacts.replayed_all_nil, app_nil_r.
  - rewrite final_cons, history_cons, (IH _ (exec_ok c Hok)).
    apply effect_described; [exact Hok | now apply exec_effect].
Qed.

(* ================================================================== *)
(** ** Theorems on sequences of operations *)
(* ================================================================== *)

(** C1. After any finite sequence of calls run from the empty store,
    [list_tasks()] returns the listing the payloads of the calls
    prescribe: the k-th create that returned has id k and is listed
    unless a later delete of that id returned, with the fields of its
    create payload overlaid by the payloads of the later updates of that
    id that returned, in order of creation; and it leaves the globals as
    they are.  The same listing is made of the tasks the calls returned:
    per surviving id, the task returned by its latest successful create
    or update; and the ids listed are the created and not later deleted
    ids, in order of creation. *)
Theorem list_tasks_follows_history (cs : list call) :
  list_tasks (final cs initial) =
  (Return (History.described_listing 0 (history cs initial)),
   final cs initial)
  /\ list_tasks (final cs initial) =
     (Return (History.expected_listing (history cs initial)),
      final cs initial)
  /\ listed_ids (final cs initial) =
     History.surviving_ids (history cs initial).
Proof.
  assert (H : listing (final cs initial) =
              History.expected_listing (history cs initial))
    by now rewrite (listing_run cs initial_ok).
  assert (H' : listing (final cs initial) =
               History.described_listing 0 (history cs initial))
    by now rewrite (described_run cs initial_ok).
  split; [|split].
  - rewrite list_tasks_eq. now rewrite H'.
  - rewrite list_tasks_eq. now rewrite H.
  - unfold listed_ids. rewrite H. apply expected_listing_ids.
    apply history_updated_ids, initial_ok.
Qed.

(** C2. N creates run from the fresh store all succeed, and the ids of the
    tasks they return are 1, 2, ..., N in that order: pairwise distinct,
    strictly increasing, the k-th being k. *)
Theorem create_ids_count_from_one (inputs : list (datetime * TaskCreate.t)) :
  let log := history (creates inputs) initial in
  let N := List.length inputs in
  Forall (fun ev => exists task, snd ev = Return (ATask task)) log
  /\ List.length (History.created_tasks log) = N
  /\ History.created_ids log = map Z.of_nat (seq 1 N)
  /\ NoDup (History.created_ids log)
  /\ StronglySorted Z.lt (History.created_ids log)
  /\ (forall k, (1 <= k <= N)%nat ->
        nth_error (History.created_ids log) (k - 1) = Some (Z.of_nat k)).
Proof.
  intros log N. subst log N.
  destruct (creates_all_return inputs initial) as [Hall Hlen].
  destruct (created_ids_run (creates inputs) initial) as [Hids _].
  cbn zeta in Hids. rewrite Hlen in Hids. cbn [current_id initial] in Hids.
  split; [exact Hall|]. split; [exact Hlen|].
  split; [|split; [|split]].
  - now rewrite Hids, ids_from_zero.
  - rewrite Hids. apply ids_from_NoDup.
  - rewrite Hids. apply ids_from_sorted.
  - intros k Hk. rewrite Hids, ids_from_nth by lia. f_equal. lia.
Qed.

(** C5. In any sequence of calls run from the empty store, no create that
    comes after a successful [delete_task(k)] returns a task with id [k];
    no call lowers the counter, and [delete_task] leaves it as it is. *)
Theorem deleted_id_not_reassigned
        (cs : list call) (h1 h2 : list History.event) (k : Z) (r : value)
        (H : history cs initial = h1 ++ (Delete k, Return r) :: h2) :
  (forall task, In task (History.created_tasks h2) -> Task.id task <> k)
  /\ (forall c s, current_id s <= current_id (snd (exec c s)))
  /\ (forall k' s, current_id (snd (delete_task k' s)) = current_id s).
Proof.
  split; [|split].
  - apply history_split in H. destruct H as (cs1 & c & cs2 & -> & Hev & ->).
    inversion Hev as [[Hc Hr]]. subst c. clear Hev.
    set (s1 := final cs1 initial) in *.
    assert (Hok : store_ok s1) by apply (final_ok cs1 initial_ok).
    pose proof (exec_effect (Delete k) Hok) as He.
    rewrite <- Hr in He.
    inversion He as [c r' _ _ Hdel | | | k' Hin]; subst.
    + specialize (Hdel k). simpl in Hdel. rewrite Z.eqb_refl in Hdel.
      discriminate.
    + apply PyDictFacts.contains_keys in Hin.
      destruct Hok as [_ _ _ Hi]. rewrite Forall_forall in Hi.
      apply Hi in Hin.
      intros task Htask.
      destruct (created_ids_run cs2 (snd (exec (Delete k) s1))) as [Hids _].
      cbn zeta in Hids.
      apply (in_map Task.id) in Htask. fold (History.created_ids
        (history cs2 (snd (exec (Delete k) s1)))) in Htask.
      rewrite Hids in Htask. apply ids_from_bounds in Htask.
      pose proof (exec_counter (Delete k) s1). lia.
  - exact exec_counter.
  - intros k' s. destruct (PyDict.contains k' (tasks_db s)) eqn:Hin.
    + now rewrite (delete_task_found k' s Hin).
    + now rewrite (delete_task_missing k' s Hin).
Qed.

(* ================================================================== *)
(** ** Theorems on single operations *)
(* ================================================================== *)

(** C3. When [k] is not a key of the store, [get_task], [update_task] and
    [delete_task] each raise [HTTPException(404, "Task not found")] and
    leave the dictionary and the counter as they were; when [k] is a key,
    none of them raises an [HTTPException].  An id the counter has not
    reached is not a key of a store built from the empty one, and an id is
    not a key after [delete_task] ran on it. *)
Theorem missing_id_raises_not_found (s : State) (k : Z) (p : TaskUpdate.t) :
  (PyDict.contains k (tasks_db s) = false ->
     get_task k s = (Raise (HTTPException 404 "Task not found"), s)
     /\ update_task k p s = (Raise (HTTPException 404 "Task not found"), s)
     /\ delete_task k s = (Raise (HTTPException 404 "Task not found"), s)
     /\ response_status 200 (fst (get_task k s)) = 404
     /\ response_status 200 (fst (update_task k p s)) = 404
     /\ response_status 204 (fst (delete_task k s)) = 404)
  /\ (PyDict.contains k (tasks_db s) = true ->
      forall code detail,
        fst (get_task k s) <> Raise (HTTPException code detail)
        /\ fst (update_task k p s) <> Raise (HTTPException code detail)
        /\ fst (delete_task k s) <> Raise (HTTPException code detail))
  /\ (forall cs, current_id (final cs initial) < k ->
        PyDict.contains k (tasks_db (final cs initial)) = false)
  /\ PyDict.contains k (tasks_db (snd (delete_task k s))) = false.
Proof.
  split; [|split; [|split]].
  - intros Hin.
    assert (Hget : PyDict.get k (tasks_db s) = None).
    { unfold PyDict.contains in Hin.
      now destruct (PyDict.get k (tasks_db s)). }
    rewrite (get_task_missing k s Hget), (update_task_missing k p s Hget),
      (delete_task_missing k s Hin).
    repeat split.
  - intros Hin code detail.
    destruct (PyDict.get k (tasks_db s)) as [task|] eqn:Hget;
      [|unfold PyDict.contains in Hin; rewrite Hget in Hin; discriminate].
    rewrite (get_task_found k s Hget), (update_task_found k p s Hget),
      (delete_task_found k s Hin).
    repeat split; try discriminate.
    destruct (Task.validate (merged task p)) as [t|e] eqn:Hv;
      [discriminate|].
    unfold Task.validate in Hv.
    repeat match type of Hv with
           | context [match ?x with _ => _ end] => destruct x
           end; inversion Hv; discriminate.
  - intros cs Hlt.
    destruct (PyDict.contains k (tasks_db (final cs initial))) eqn:Hin; auto.
    apply PyDictFacts.contains_keys in Hin.
    destruct (final_ok cs initial_ok) as [_ _ _ Hi].
    rewrite Forall_forall in Hi. apply Hi in Hin. lia.
  - assert (Hgone : forall db : PyDict.dict Task.t,
               PyDict.get k db = None -> PyDict.contains k db = false)
      by (intros db Hn; unfold PyDict.contains; now rewrite Hn).
    destruct (PyDict.contains k (tasks_db s)) eqn:Hin.
    + rewrite (delete_task_found k s Hin). simpl.
      apply Hgone, PyDictFacts.get_delitem_eq.
    + now rewrite (delete_task_missing k s Hin).
Qed.

(** C9. On a key [k] of the store, [delete_task(k)] returns [None], leaves
    the counter as it is, and removes the entry of [k] and no other: the
    entries left are those of the other keys, in the same order and with
    the same values; with unique keys the store shrinks by one entry. *)
Theorem delete_removes_only_its_entry (s : State) (k : Z)
        (Hin : PyDict.contains k (tasks_db s) = true) :
  exists s',
    delete_task k s = (Return tt, s')
    /\ response_status 204 (fst (delete_task k s)) = 204
    /\ current_id s' = current_id s
    /\ PyDict.get k (tasks_db s') = None
    /\ (forall k', k' <> k ->
          PyDict.get k' (tasks_db s') = PyDict.get k' (tasks_db s))
    /\ (forall e, In e (tasks_db s') <-> In e (tasks_db s) /\ fst e <> k)
    /\ PyDict.keys (tasks_db s') =
       filter (fun k' => negb (k' =? k)) (PyDict.keys (tasks_db s))
    /\ (PyDict.keys_unique (tasks_db s) ->
          List.length (tasks_db s) = S (List.length (tasks_db s'))).
Proof.
  exists (with_tasks_db s (PyDict.delitem k (tasks_db s))).
  rewrite (delete_task_found k s Hin).
  cbn [fst tasks_db with_tasks_db current_id].
  do 3 (split; [reflexivity|]).
  split; [apply PyDictFacts.get_delitem_eq|].
  split; [intros k' Hne; apply PyDictFacts.get_delitem_ne; congruence|].
  split; [intros e; apply PyDictFacts.In_delitem|].
  split; [apply PyDictFacts.keys_delitem|].
  intros Hu. now apply PyDictFacts.length_delitem.
Qed.

(** C7. On a key [k] of the store, [update_task(k, {})] returns the stored
    task and leaves the dictionary and the counter exactly as they were. *)
Theorem empty_update_is_noop (s : State) (k : Z) (task : Task.t)
        (Hget : PyDict.get k (tasks_db s) = Some task) :
  update_task k TaskUpdate.empty s = (Return task, s)
  /\ response_status 200 (fst (update_task k TaskUpdate.empty s)) = 200.
Proof.
  rewrite (update_task_found k TaskUpdate.empty s Hget).
  rewrite validate_merged_empty. unfold with_tasks_db.
  rewrite (PyDictFacts.setitem_same k (tasks_db s) Hget), state_eta.
  split; reflexivity.
Qed.

Lemma update_step_keeps k k' u s stored_task :
  PyDict.get k (tasks_db s) = Some stored_task ->
  exists task,
    PyDict.get k (tasks_db (snd (exec (Update k' u) s))) = Some task
    /\ Task.created_at task = Task.created_at stored_task
    /\ Task.id task = Task.id stored_task.
Proof.
  intros Hget. unfold exec, fmap, bind.
  destruct (PyDict.get k' (tasks_db s)) as [stored'|] eqn:Hget'.
  - rewrite (update_task_found k' u s Hget').
    destruct (Task.validate (merged stored' u)) as [task|e] eqn:Hv;
      cbn [fst snd ret tasks_db with_tasks_db]; [|eauto].
    destruct (Z.eq_dec k' k) as [-> | Hne].
    + rewrite PyDictFacts.get_setitem_eq. exists task.
      apply validate_merged_overlay in Hv.
      destruct Hv as (_ & _ & _ & _ & _ & Hid & Hca).
      assert (stored' = stored_task) by congruence. subst. auto.
    + rewrite PyDictFacts.get_setitem_ne by exact Hne. eauto.
  - rewrite (update_task_missing k' u s Hget'). simpl. eauto.
Qed.

Lemma updates_keep_created_at updates : forall k s stored_task,
  PyDict.get k (tasks_db s) = Some stored_task ->
  exists task,
    PyDict.get k (tasks_db (final (puts updates) s)) = Some task
    /\ Task.created_at task = Task.created_at stored_task
    /\ Task.id task = Task.id stored_task.
Proof.
  induction updates as [|[k' body] rest IH]; intros k s stored Hget.
  - exists stored. auto.
  - unfold puts in *. cbn [map fst snd]. rewrite final_cons.
    destruct (update_step_keeps k k' (TaskUpdate.validate body) s Hget)
      as (task1 & Hget1 & Hca1 & Hid1).
    destruct (IH k _ _ Hget1) as (task & Hget2 & Hca2 & Hid2).
    exists task. repeat split; congruence.
Qed.

(** C4. On a key [k] of the store, a [PUT /tasks/k] that returns a task
    has overlaid on the stored task the fields its body gives and no
    other: a field of the body shows in the returned task, a field the
    body leaves out keeps the stored value, and [id] and [created_at] keep
    the stored values whatever the body gives for them.  The returned task
    is what the store then holds under [k].  After any sequence of
    [PUT]s, to whatever ids and whether they succeed or not, the task
    under [k] still has the [id] and [created_at] it had. *)
Theorem update_overlays_given_fields
        (s s' : State) (k : Z) (stored_task task : Task.t) (body : Data.t)
        (Hget : PyDict.get k (tasks_db s) = Some stored_task)
        (Hput : PUT_task k body s = (Return task, s')) :
  overlaid (Task.title stored_task) (Data.title body) (Task.title task)
  /\ overlaid_opt (Task.description stored_task) (Data.description body)
                  (Task.description task)
  /\ overlaid (Task.status stored_task) (Data.status body)
              (Task.status task)
  /\ overlaid_opt (Task.due_date stored_task) (Data.due_date body)
                  (Task.due_date task)
  /\ overlaid_opt (Task.assignee stored_task) (Data.assignee body)
                  (Task.assignee task)
  /\ Task.id task = Task.id stored_task
  /\ Task.created_at task = Task.created_at stored_task
  /\ PyDict.get k (tasks_db s') = Some task
  /\ current_id s' = current_id s
  /\ (forall updates, exists task',
        PyDict.get k (tasks_db (final (puts updates) s)) = Some task'
        /\ Task.created_at task' = Task.created_at stored_task
        /\ Task.id task' = Task.id stored_task).
Proof.
  unfold PUT_task in Hput.
  rewrite (update_task_found k (TaskUpdate.validate body) s Hget) in Hput.
  destruct (Task.validate (merged stored_task (TaskUpdate.validate body)))
    as [t|e] eqn:Hv; [|discriminate].
  inversion Hput; subst. clear Hput.
  apply validate_merged_overlay in Hv.
  destruct Hv as (H1 & H2 & H3 & H4 & H5 & H6 & H7).
  do 7 (split; [assumption|]).
  split; [apply PyDictFacts.get_setitem_eq|].
  split; [reflexivity|].
  intros updates. now apply updates_keep_created_at.
Qed.

(** C8. A body that passes the [TaskCreate] schema makes [POST /tasks]
    call [create_task], which returns a task: its id is the counter's
    next value, it is what the store then holds under that id, a field
    the body gives has the body's value, and a field the body leaves out
    has its default, ["todo"] for [status] and [None] for [description],
    [due_date] and [assignee]. *)
Theorem create_defaults_omitted_fields
        (utcnow : datetime) (body : Data.t) (task_in : TaskCreate.t)
        (s : State) (Hvalid : TaskCreate.validate body = inr task_in) :
  exists task s',
    POST_tasks utcnow body s = (Return task, s')
    /\ create_task utcnow task_in s = (Return task, s')
    /\ response_status 201 (fst (POST_tasks utcnow body s)) = 201
    /\ Task.id task = current_id s + 1
    /\ current_id s' = current_id s + 1
    /\ PyDict.get (Task.id task) (tasks_db s') = Some task
    /\ Task.created_at task = utcnow
    /\ Data.title body = Present (Some (Task.title task))
    /\ Task.status task =
       match Data.status body with
       | Present (Some v) => v
       | _ => "todo"
       end
    /\ Task.description task =
       match Data.description body with Present v => v | Absent => None end
    /\ Task.due_date task =
       match Data.due_date body with Present v => v | Absent => None end
    /\ Task.assignee task =
       match Data.assignee body with Present v => v | Absent => None end.
Proof.
  unfold POST_tasks. rewrite Hvalid, create_task_eq.
  eexists. eexists. split; [reflexivity|]. split; [reflexivity|].
  cbn [fst response_status Task.id new_task current_id tasks_db].
  do 3 (split; [reflexivity|]).
  split; [apply PyDictFacts.get_setitem_eq|].
  split; [reflexivity|].
  cbn [Task.created_at Task.title Task.status Task.description
       Task.due_date Task.assignee].
  destruct body as [ti de st du a i c].
  destruct ti as [|[|]], st as [|[|]], de, du, a;
    cbn in Hvalid; inversion Hvalid; subst; cbn; repeat split.
Qed.

(** The ids listed are the keys of the dictionary, in its order. *)
Lemma listed_ids_keys s :
  store_ok s -> listed_ids s = PyDict.keys (tasks_db s).
Proof.
  intros [_ _ Hk _]. unfold listed_ids. rewrite listing_values.
  unfold PyDict.values, PyDict.keys. rewrite map_map.
  apply map_ext_in. intros e He. rewrite Forall_forall in Hk. auto.
Qed.

Lemma member_In k l : existsb (Z.eqb k) l = true <-> In k l.
Proof.
  rewrite existsb_exists. split.
  - intros (x & Hx & E). apply Z.eqb_eq in E. now subst.
  - intros H. exists k. split; [exact H | apply Z.eqb_refl].
Qed.

Lemma common_self l : common l l = l.
Proof.
  unfold common. apply forallb_filter_id, forallb_forall.
  intros x Hx. now apply member_In.
Qed.

(** Deleting keeps what is common to both listings in the same order. *)
Lemma common_filter (f : Z -> bool) l :
  common l (filter f l) = common (filter f l) l.
Proof.
  unfold common.
  transitivity (filter f l).
  - apply filter_ext_in. intros x Hx.
    destruct (f x) eqn:E.
    + apply member_In, filter_In. auto.
    + destruct (existsb (Z.eqb x) (filter f l)) eqn:E'; auto.
      apply member_In, filter_In in E'. destruct E'. congruence.
  - symmetry. apply forallb_filter_id, forallb_forall.
    intros x Hx. apply filter_In in Hx. now apply member_In.
Qed.

(** Appending a new id keeps the old ones in the same order. *)
Lemma common_snoc l k :
  ~ In k l -> common l (l ++ [k]) = common (l ++ [k]) l.
Proof.
  intros Hk. unfold common. rewrite filter_app. simpl.
  destruct (existsb (Z.eqb k) l) eqn:E;
    [apply member_In in E; contradiction|].
  rewrite app_nil_r. fold (common l l). rewrite common_self.
  apply forallb_filter_id, forallb_forall.
  intros x Hx. apply member_In, in_or_app. auto.
Qed.

(** One call and the listing, by cases on the call. *)
Lemma exec_listing_order (c : call) (s : State) (Hok : store_ok s) :
  let s' := snd (exec c s) in
  common (listed_ids s) (listed_ids s') = common (listed_ids s') (listed_ids s)
  /\ (forall k u task,
        c = Update k u -> fst (exec c s) = Return (ATask task) ->
        listed_ids s' = listed_ids s
        /\ listing s' =
           map (fun t => if Task.id t =? k then task else t) (listing s))
  /\ (forall k,
        c = Delete k -> fst (exec c s) = Return NoContent ->
        listing s' = filter (fun t => negb (Task.id t =? k)) (listing s)
        /\ listed_ids s' =
           filter (fun k' => negb (k' =? k)) (listed_ids s)).
Proof.
  intros s'. subst s'.
  pose proof (exec_effect c Hok) as He.
  pose proof (exec_ok c Hok) as Hok'.
  rewrite (listed_ids_keys Hok'), (listed_ids_keys Hok).
  remember (fst (exec c s)) as r eqn:Er.
  remember (snd (exec c s)) as s1 eqn:Es.
  clear Er Es Hok'. pose proof Hok as [Hc Hu Hk Hi].
  destruct He as [c r Hcr Hup Hdel | now tin | k u stored task Hget Hv | k Hin].
  - split; [now rewrite !common_self | split].
    + intros k u task -> Hr. specialize (Hup k). rewrite Hr in Hup.
      simpl in Hup. rewrite Z.eqb_refl in Hup. discriminate.
    + intros k -> Hr. specialize (Hdel k). rewrite Hr in Hdel.
      simpl in Hdel. rewrite Z.eqb_refl in Hdel. discriminate.
  - split; [|split; intros; discriminate].
    cbn [tasks_db]. unfold PyDict.keys. rewrite map_app.
    apply common_snoc. apply PyDictFacts.get_None_keys.
    now apply next_id_fresh.
  - assert (Hin : PyDict.contains k (tasks_db s) = true)
      by (unfold PyDict.contains; now rewrite Hget).
    cbn [tasks_db with_tasks_db].
    rewrite PyDictFacts.keys_setitem_present by exact Hin.
    split; [reflexivity | split; [|intros; discriminate]].
    intros k0 u0 task0 Hcall Hr. inversion Hcall. inversion Hr. subst.
    split; [reflexivity|].
    rewrite !listing_values. cbn [tasks_db with_tasks_db].
    now apply values_setitem_keyed.
  - cbn [tasks_db with_tasks_db]. rewrite PyDictFacts.keys_delitem.
    split; [apply common_filter | split; [intros; discriminate|]].
    intros k0 Hcall _. inversion Hcall. subst.
    split; [|reflexivity].
    rewrite !listing_values. cbn [tasks_db with_tasks_db].
    now apply values_delitem_keyed.
Qed.

(** C10. In a store that satisfies the invariant, whatever call runs, the
    ids listed before and still listed after come in the same relative
    order before and after.  A successful [update_task] leaves the list of
    ids as it is, the updated task taking the place of the stored one, and
    a successful [delete_task] removes its task and keeps the others in
    order. *)
Theorem listing_order_is_kept (s : State) (Hok : store_ok s) :
  (forall c,
     common (listed_ids s) (listed_ids (snd (exec c s)))
     = common (listed_ids (snd (exec c s))) (listed_ids s))
  /\ (forall k u task s',
        update_task k u s = (Return task, s') ->
        listed_ids s' = listed_ids s
        /\ listing s' =
           map (fun t => if Task.id t =? k then task else t) (listing s))
  /\ (forall k s',
        delete_task k s = (Return tt, s') ->
        listing s' = filter (fun t => negb (Task.id t =? k)) (listing s)
        /\ listed_ids s' =
           filter (fun k' => negb (k' =? k)) (listed_ids s)).
Proof.
  split; [|split].
  - intros c. apply (exec_listing_order c Hok).
  - intros k u task s' Hrun.
    destruct (exec_listing_order (Update k u) Hok) as (_ & Hup & _).
    cbn zeta in Hup. unfold exec, fmap, bind in Hup. rewrite Hrun in Hup.
    now apply (Hup k u task).
  - intros k s' Hrun.
    destruct (exec_listing_order (Delete k) Hok) as (_ & _ & Hdel).
    cbn zeta in Hdel. unfold exec, fmap, bind in Hdel. rewrite Hrun in Hdel.
    now apply (Hdel k).
Qed.

(* ================================================================== *)
(** ** A merged task that fails the schema *)
(* ================================================================== *)

(** When the body sets [title] or [status] to [None], the constructor call
    inside [update_task] raises before the store is written; the exception
    is Pydantic's own, not FastAPI's [RequestValidationError]. *)
Lemma update_task_invalid_merge s k stored_task u :
  PyDict.get k (tasks_db s) = Some stored_task ->
  TaskUpdate.title u = Present None \/ TaskUpdate.status u = Present None ->
  exists errs,
    update_task k u s = (Raise (ValidationError errs), s)
    /\ response_status 200 (fst (update_task k u s)) = 500.
Proof.
  intros Hget Hnull.
  destruct (validate_merged_raises stored_task u Hnull) as [errs Hv].
  exists errs. rewrite (update_task_found k u s Hget), Hv. auto.
Qed.

(** C6. The store holds task 1, created from [{"title": "Write spec"}].
    [PUT /tasks/1] with [{"title": null}] passes the [TaskUpdate] schema,
    the merged data fails the [Task] schema inside the handler, and the
    [pydantic.ValidationError] leaves the handler: dictionary and counter
    are as before, and the response is 500, not 422. *)
Theorem update_title_null_answers_500 :
  PyDict.get 1 (tasks_db Sample.one_task) = Some Sample.first_task
  /\ PUT_task 1 Sample.title_null Sample.one_task =
     (Raise (ValidationError [("title", none_not_allowed)]), Sample.one_task)
  /\ response_status 200 (fst (PUT_task 1 Sample.title_null Sample.one_task))
     = 500
  /\ response_status 200 (fst (PUT_task 1 Sample.title_null Sample.one_task))
     <> 422.
Proof.
  split; [reflexivity|]. split; [reflexivity|].
  split; [reflexivity | discriminate].
Qed.

(* ================================================================== *)
(** ** The scenarios of the specification, run *)
(* ================================================================== *)

Example scenario_post :
  POST_tasks Sample.noon Sample.write_spec_body initial =
  (Return Sample.first_task,
   {| tasks_db := [(1, Sample.first_task)]; current_id := 1 |})
  /\ Task.status Sample.first_task = "todo"
  /\ Task.description Sample.first_task = None.
Proof. repeat split. Qed.

Example scenario_get :
  get_task 1 Sample.one_task = (Return Sample.first_task, Sample.one_task).
Proof. reflexivity. Qed.

Example scenario_put :
  fst (PUT_task 1 Sample.status_done Sample.one_task)
  = Return Sample.done_task.
Proof. reflexivity. Qed.

Example scenario_delete :
  let s := snd (delete_task 1 Sample.one_task) in
  fst (delete_task 1 Sample.one_task) = Return tt
  /\ fst (get_task 1 s) = Raise (HTTPException 404 "Task not found").
Proof. split; reflexivity. Qed.

Example scenario_get_999 :
  response_status 200 (fst (get_task 999 initial)) = 404.
Proof. reflexivity. Qed.

Example scenario_post_without_title :
  POST_tasks Sample.noon Sample.status_done initial =
  (Raise (RequestValidationError [("title", missing)]), initial).
Proof. reflexivity. Qed.

Example scenario_mixed :
  listing (final Sample.mixed initial) =
  [Sample.done_task; new_task 3 Sample.later Sample.write_spec]
  /\ History.expected_listing (history Sample.mixed initial) =
     [Sample.done_task; new_task 3 Sample.later Sample.write_spec]
  /\ History.surviving_ids (history Sample.mixed initial) = [1; 3]
  /\ History.described_listing 0 (history Sample.mixed initial) =
     [Sample.done_task; new_task 3 Sample.later Sample.write_spec].
Proof. repeat split. Qed.

(* ================================================================== *)
(** ** The theorems at concrete inputs *)
(* ================================================================== *)

Lemma create_ids_count_from_one_witness :
  History.created_ids
    (history (creates [(Sample.noon, Sample.write_spec);
                       (Sample.later, Sample.review)]) initial) = [1; 2]
  /\ nth_error
       (History.created_ids
          (history (creates [(Sample.noon, Sample.write_spec);
                             (Sample.later, Sample.review)]) initial))
       (2 - 1) = Some 2.
Proof.
  pose proof (create_ids_count_from_one
                [(Sample.noon, Sample.write_spec);
                 (Sample.later, Sample.review)])
    as (_ & _ & Hids & _ & _ & Hnth).
  split.
  - exact Hids.
  - apply (Hnth 2%nat). simpl. lia.
Defined.

Lemma missing_id_raises_not_found_witness :
  get_task 999 initial = (Raise (HTTPException 404 "Task not found"), initial)
  /\ (forall code detail,
        fst (update_task 1 TaskUpdate.empty Sample.one_task)
        <> Raise (HTTPException code detail))
  /\ PyDict.contains 999 (tasks_db (final Sample.mixed initial)) = false.
Proof.
  destruct (missing_id_raises_not_found initial 999 TaskUpdate.empty)
    as (Hmissing & _ & Hfresh & _).
  destruct (missing_id_raises_not_found Sample.one_task 1 TaskUpdate.empty)
    as (_ & Hpresent & _).
  split; [|split].
  - apply Hmissing. reflexivity.
  - intros code detail. apply Hpresent. reflexivity.
  - apply Hfresh. vm_compute. reflexivity.
Defined.

Lemma update_overlays_given_fields_witness :
  PyDict.get 1 (tasks_db Sample.one_task) = Some Sample.first_task
  /\ PUT_task 1 (Sample.with_id_created_at 42 Sample.later Sample.status_done)
              Sample.one_task
     = (Return Sample.done_task,
        with_tasks_db Sample.one_task [(1, Sample.done_task)])
  /\ Task.status Sample.done_task = "done"
  /\ Task.title Sample.done_task = Task.title Sample.first_task
  /\ Task.id Sample.done_task = Task.id Sample.first_task
  /\ Task.created_at Sample.done_task = Task.created_at Sample.first_task.
Proof.
  assert (Hget : PyDict.get 1 (tasks_db Sample.one_task)
                 = Some Sample.first_task) by reflexivity.
  assert (Hput : PUT_task 1 (Sample.with_id_created_at 42 Sample.later
                                                        Sample.status_done)
                          Sample.one_task
                 = (Return Sample.done_task,
                    with_tasks_db Sample.one_task [(1, Sample.done_task)]))
    by reflexivity.
  pose proof (update_overlays_given_fields
                Sample.one_task 1
                (Sample.with_id_created_at 42 Sample.later Sample.status_done)
                Hget Hput)
    as (Ht & _ & Hs & _ & _ & Hid & Hca & _).
  split; [exact Hget|]. split; [exact Hput|].
  split; [|split; [exact Ht | split; [exact Hid | exact Hca]]].
  simpl in Hs. now inversion Hs.
Defined.

Lemma deleted_id_not_reassigned_witness :
  history [Create Sample.noon Sample.write_spec; Delete 1;
           Create Sample.later Sample.review] initial
  = [(Create Sample.noon Sample.write_spec, Return (ATask Sample.first_task))]
    ++ (Delete 1, Return NoContent)
    :: [(Create Sample.later Sample.review,
         Return (ATask (new_task 2 Sample.later Sample.review)))]
  /\ Task.id (new_task 2 Sample.later Sample.review) <> 1.
Proof.
  assert (H : history [Create Sample.noon Sample.write_spec; Delete 1;
                       Create Sample.later Sample.review] initial
              = [(Create Sample.noon Sample.write_spec,
                  Return (ATask Sample.first_task))]
                ++ (Delete 1, Return NoContent)
                :: [(Create Sample.later Sample.review,
                     Return (ATask (new_task 2 Sample.later Sample.review)))])
    by reflexivity.
  split; [exact H|].
  apply (proj1 (deleted_id_not_reassigned _ _ _ _ _ H)). simpl. auto.
Defined.

Lemma empty_update_is_noop_witness :
  PyDict.get 1 (tasks_db Sample.one_task) = Some Sample.first_task
  /\ update_task 1 TaskUpdate.empty Sample.one_task
     = (Return Sample.first_task, Sample.one_task).
Proof.
  assert (Hget : PyDict.get 1 (tasks_db Sample.one_task)
                 = Some Sample.first_task) by reflexivity.
  split; [exact Hget|].
  apply (empty_update_is_noop Sample.one_task 1 Hget).
Defined.

Lemma create_defaults_omitted_fields_witness :
  TaskCreate.validate Sample.write_spec_body = inr Sample.write_spec
  /\ exists task s',
       POST_tasks Sample.noon Sample.write_spec_body initial
       = (Return task, s')
       /\ Task.status task = "todo"
       /\ Task.description task = None.
Proof.
  assert (Hv : TaskCreate.validate Sample.write_spec_body
               = inr Sample.write_spec) by reflexivity.
  split; [exact Hv|].
  destruct (create_defaults_omitted_fields Sample.noon _ initial Hv)
    as (task & s' & Hpost & _ & _ & _ & _ & _ & _ & _ & Hst & Hde & _).
  exists task, s'. auto.
Defined.

Lemma delete_removes_only_its_entry_witness :
  PyDict.contains 1 (tasks_db Sample.two_tasks) = true
  /\ exists s',
       delete_task 1 Sample.two_tasks = (Return tt, s')
       /\ PyDict.get 1 (tasks_db s') = None
       /\ PyDict.get 2 (tasks_db s') = PyDict.get 2 (tasks_db Sample.two_tasks).
Proof.
  assert (Hin : PyDict.contains 1 (tasks_db Sample.two_tasks) = true)
    by reflexivity.
  split; [exact Hin|].
  destruct (delete_removes_only_its_entry Sample.two_tasks 1 Hin)
    as (s' & Hdel & _ & _ & Hgone & Hothers & _).
  exists s'. split; [exact Hdel|]. split; [exact Hgone|].
  apply Hothers. discriminate.
Defined.

Lemma two_tasks_ok : store_ok Sample.two_tasks.
Proof.
  split.
  - simpl. lia.
  - simpl. unfold PyDict.keys_unique. simpl.
    constructor.
    + intros [H | []]. discriminate.
    + constructor; [intros [] | constructor].
  - simpl. repeat constructor.
  - simpl. repeat constructor; simpl; lia.
Defined.

Lemma listing_order_is_kept_witness :
  store_ok Sample.two_tasks
  /\ listed_ids Sample.two_tasks = [1; 2]
  /\ listed_ids (snd (update_task 1 (TaskUpdate.validate Sample.status_done)
                                  Sample.two_tasks))
     = listed_ids Sample.two_tasks
  /\ listed_ids (snd (delete_task 1 Sample.two_tasks)) = [2].
Proof.
  destruct (listing_order_is_kept two_tasks_ok) as (_ & Hup & Hdel).
  split; [exact two_tasks_ok|]. split; [reflexivity|]. split.
  - apply (Hup 1 (TaskUpdate.validate Sample.status_done) Sample.done_task).
    reflexivity.
  - destruct (Hdel 1 (snd (delete_task 1 Sample.two_tasks)) eq_refl)
      as [_ Hids].
    rewrite Hids. reflexivity.
Defined.

(* ================================================================== *)
(** ** Further properties: invariants of the reachable stores *)
(* ================================================================== *)

(** In every store reached from the empty one, the listed tasks have
    pairwise different ids, each between 1 and the counter, and
    [get_task] on the id of a listed task returns that task. *)
Theorem reachable_store_is_consistent (cs : list call) :
  let s := final cs initial in
  store_ok s
  /\ NoDup (listed_ids s)
  /\ (forall task, In task (listing s) ->
        1 <= Task.id task <= current_id s
        /\ get_task (Task.id task) s = (Return task, s)).
Proof.
  intros s. assert (Hok : store_ok s) by apply (final_ok cs initial_ok).
  split; [exact Hok|]. pose proof Hok as [Hc Hu Hk Hi]. split.
  - rewrite (listed_ids_keys Hok). exact Hu.
  - intros task Hin. rewrite listing_values in Hin.
    unfold PyDict.values in Hin. apply in_map_iff in Hin.
    destruct Hin as ([k t] & Ht & He). simpl in Ht. subst t.
    rewrite Forall_forall in Hk, Hi.
    pose proof (Hk _ He) as Hid. simpl in Hid.
    split.
    + rewrite Hid. apply Hi. apply (in_map fst) in He. exact He.
    + apply get_task_found. rewrite Hid.
      destruct (PyDict.get k (tasks_db s)) as [t'|] eqn:Hget.
      * apply PyDictFacts.get_Some_In in Hget. f_equal.
        clear - Hu He Hget. unfold PyDict.keys_unique, PyDict.keys in Hu.
        induction (tasks_db s) as [|[k0 v0] r IH]; [destruct He|].
        simpl in Hu. inversion Hu as [|? ? Hnot Hnd]; subst.
        destruct He as [He | He], Hget as [Hg | Hg].
        -- congruence.
        -- inversion He; subst. apply (in_map fst) in Hg. contradiction.
        -- inversion Hg; subst. apply (in_map fst) in He. contradiction.
        -- auto.
      * apply PyDictFacts.get_None_keys in Hget.
        apply (in_map fst) in He. contradiction.
Qed.

Lemma sorted_snoc l k :
  StronglySorted Z.lt l -> Forall (fun x => x < k) l ->
  StronglySorted Z.lt (l ++ [k]).
Proof.
  induction 1 as [|a l Hs IH Ha]; intros Hall; simpl.
  - repeat constructor.
  - inversion Hall as [|? ? Hak Hl]; subst. constructor; [auto|].
    apply Forall_app. split; [exact Ha | repeat constructor; exact Hak].
Qed.

Lemma sorted_filter (f : Z -> bool) l :
  StronglySorted Z.lt l -> StronglySorted Z.lt (filter f l).
Proof.
  induction 1 as [|a l Hs IH Ha]; simpl; [constructor|].
  destruct (f a); [|exact IH]. constructor; [exact IH|].
  rewrite Forall_forall in *. intros x Hx. apply filter_In in Hx.
  now apply Ha.
Qed.

Lemma effect_sorted s c r s' :
  store_ok s -> effect s c r s' ->
  StronglySorted Z.lt (PyDict.keys (tasks_db s)) ->
  StronglySorted Z.lt (PyDict.keys (tasks_db s')).
Proof.
  intros Hok He Hs. pose proof Hok as [Hc Hu Hk Hi].
  destruct He as [c r _ _ _ | now tin | k u stored task Hget Hv | k Hin];
    cbn [tasks_db with_tasks_db].
  - exact Hs.
  - unfold PyDict.keys in *. rewrite map_app. apply sorted_snoc; auto.
    eapply Forall_impl; [|exact Hi]. simpl. intros; lia.
  - rewrite PyDictFacts.keys_setitem_present; auto.
    unfold PyDict.contains. now rewrite Hget.
  - rewrite PyDictFacts.keys_delitem. now apply sorted_filter.
Qed.

Lemma final_sorted cs : forall s,
  store_ok s ->
  StronglySorted Z.lt (PyDict.keys (tasks_db s)) ->
  StronglySorted Z.lt (PyDict.keys (tasks_db (final cs s))).
Proof.
  induction cs as [|c cs IH]; intros s Hok Hs; [exact Hs|].
  rewrite final_cons. apply IH; [now apply exec_ok|].
  eapply effect_sorted; [exact Hok | now apply exec_effect | exact Hs].
Qed.

(** After any sequence of calls from the empty store, [list_tasks()]
    returns the tasks by strictly increasing id. *)
Theorem listing_is_ascending (cs : list call) :
  StronglySorted Z.lt (listed_ids (final cs initial)).
Proof.
  rewrite (listed_ids_keys (final_ok cs initial_ok)).
  apply final_sorted; [apply initial_ok | constructor].
Qed.

Lemma created_only_by_create c r :
  is_create c = false -> History.created (c, r) = None.
Proof.
  destruct c; intros H; try discriminate; now destruct r as [[]|].
Qed.

(** The counter is the number of [create_task] calls made so far, and
    that is also the number of tasks the creates returned. *)
Theorem counter_counts_creates (cs : list call) :
  current_id (final cs initial)
  = Z.of_nat (List.length (filter is_create cs))
  /\ List.length (History.created_tasks (history cs initial))
     = List.length (filter is_create cs).
Proof.
  assert (Hlen : forall s,
             List.length (History.created_tasks (history cs s))
             = List.length (filter is_create cs)).
  { induction cs as [|c cs IH]; intros s; [reflexivity|].
    rewrite history_cons. cbn [History.created_tasks filter].
    destruct (is_create c) eqn:Hc.
    - destruct c as [now tin | | | |]; try discriminate.
      unfold exec at 1, fmap, bind. rewrite create_task_eq.
      cbn [fst ret History.created List.length]. now rewrite IH.
    - rewrite (created_only_by_create c _ Hc). apply IH. }
  split; [|apply Hlen].
  destruct (created_ids_run cs initial) as [_ Hc]. cbn zeta in Hc.
  rewrite Hc, Hlen. reflexivity.
Qed.

(* ================================================================== *)
(** ** Further properties: failures and reads *)
(* ================================================================== *)

(** A call that raises has written nothing: dictionary and counter are
    what they were before the call. *)
Theorem raising_call_writes_nothing (c : call) (s : State) (e : exn)
        (Hraise : fst (exec c s) = Raise e) :
  snd (exec c s) = s.
Proof.
  revert Hraise.
  destruct c as [now tin | k u | k | k |]; unfold exec, fmap, bind.
  - rewrite create_task_eq. discriminate.
  - destruct (PyDict.get k (tasks_db s)) as [stored|] eqn:Hget.
    + rewrite (update_task_found k u s Hget).
      destruct (Task.validate (merged stored u)); [discriminate | auto].
    + now rewrite (update_task_missing k u s Hget).
  - destruct (PyDict.contains k (tasks_db s)) eqn:Hin.
    + rewrite (delete_task_found k s Hin). discriminate.
    + now rewrite (delete_task_missing k s Hin).
  - destruct (PyDict.get k (tasks_db s)) as [task|] eqn:Hget.
    + rewrite (get_task_found k s Hget). discriminate.
    + now rewrite (get_task_missing k s Hget).
  - rewrite list_tasks_eq. discriminate.
Qed.

Lemma read_keeps_state c s : is_read c = true -> snd (exec c s) = s.
Proof.
  destruct c as [now tin | k u | k | k |]; try discriminate; intros _;
    unfold exec, fmap, bind.
  - destruct (PyDict.get k (tasks_db s)) as [task|] eqn:Hget.
    + now rewrite (get_task_found k s Hget).
    + now rewrite (get_task_missing k s Hget).
  - now rewrite list_tasks_eq.
Qed.

(** [get_task] and [list_tasks] calls can be taken out of any sequence of
    calls: the store the sequence ends in, and what the other calls
    return or raise, stay the same. *)
Theorem reads_can_be_dropped (cs : list call) (s : State) :
  final (filter (fun c => negb (is_read c)) cs) s = final cs s
  /\ history (filter (fun c => negb (is_read c)) cs) s
     = filter (fun ev => negb (is_read (fst ev))) (history cs s).
Proof.
  revert s. induction cs as [|c cs IH]; intros s; [split; reflexivity|].
  cbn [filter]. rewrite history_cons. cbn [filter fst].
  destruct (is_read c) eqn:Hr; cbn [negb].
  - rewrite final_cons, (read_keeps_state c s Hr). apply IH.
  - rewrite !final_cons, history_cons.
    destruct (IH (snd (exec c s))) as [IHf IHh].
    now rewrite IHf, IHh.
Qed.

(** A [POST /tasks] whose body has no [title], or has [title] or [status]
    set to null, is refused with 422 before [create_task] runs: the
    error names the field, the dictionary is as it was and no id is used
    up. *)
Theorem post_without_title_refused
        (utcnow : datetime) (body : Data.t) (s : State)
        (Hbad : Data.title body = Absent
                \/ Data.title body = Present None
                \/ Data.status body = Present None) :
  exists errs,
    POST_tasks utcnow body s = (Raise (RequestValidationError errs), s)
    /\ response_status 201 (fst (POST_tasks utcnow body s)) = 422
    /\ (Data.title body = Absent -> In ("title", missing) errs)
    /\ (Data.title body = Present None ->
        In ("title", none_not_allowed) errs)
    /\ (Data.status body = Present None ->
        In ("status", none_not_allowed) errs).
Proof.
  unfold POST_tasks.
  destruct body as [ti de st du a i c]. cbn [Data.title Data.status] in *.
  destruct ti as [|[|]], st as [|[|]], de, du, a; cbn;
    try (exfalso; destruct Hbad as [H | [H | H]]; discriminate);
    eexists; (split; [reflexivity|]); (split; [reflexivity|]);
    repeat split; intros H; try discriminate; simpl; auto.
Qed.

(** On a key of the store, [update_task] returns exactly when the payload
    sets neither [title] nor [status] to null; otherwise it raises
    Pydantic's [ValidationError] and the store is as before. *)
Theorem update_returns_iff (s : State) (k : Z) (stored_task : Task.t)
        (u : TaskUpdate.t)
        (Hget : PyDict.get k (tasks_db s) = Some stored_task) :
  ((exists task s', update_task k u s = (Return task, s'))
   <-> TaskUpdate.title u <> Present None
       /\ TaskUpdate.status u <> Present None)
  /\ ((exists errs, update_task k u s = (Raise (ValidationError errs), s))
      <-> TaskUpdate.title u = Present None
          \/ TaskUpdate.status u = Present None).
Proof.
  rewrite (update_task_found k u s Hget).
  assert (Hcases : (TaskUpdate.title u = Present None
                    \/ TaskUpdate.status u = Present None)
                   \/ (TaskUpdate.title u <> Present None
                       /\ TaskUpdate.status u <> Present None)).
  { destruct (TaskUpdate.title u) as [|[|]], (TaskUpdate.status u) as [|[|]];
      try (left; auto; fail); right; split; discriminate. }
  destruct Hcases as [Hnull | [Ht Hs]].
  - destruct (validate_merged_raises stored_task u Hnull) as [errs ->].
    split; split.
    + intros (task & s' & H). discriminate.
    + intros [Ht Hs]. destruct Hnull; contradiction.
    + auto.
    + eauto.
  - destruct (validate_merged_returns stored_task u Ht Hs) as [task ->].
    split; split.
    + auto.
    + eauto.
    + intros (errs & H). discriminate.
    + intros [H | H]; contradiction.
Qed.

(* ================================================================== *)
(** ** Further properties: writes, then reads and writes *)
(* ================================================================== *)

Lemma setitem_setitem (V : Type) k (v1 v2 : V) (d : PyDict.dict V) :
  PyDict.setitem k v2 (PyDict.setitem k v1 d) = PyDict.setitem k v2 d.
Proof.
  induction d as [|[k' v'] r IH]; simpl.
  - now rewrite Z.eqb_refl.
  - destruct (k' =? k) eqn:E; simpl; rewrite E; [reflexivity|].
    now rewrite IH.
Qed.

Lemma delitem_absent (V : Type) k (d : PyDict.dict V) :
  PyDict.get k d = None -> PyDict.delitem k d = d.
Proof.
  induction d as [|[k' v'] r IH]; simpl; [reflexivity|].
  destruct (k' =? k); [discriminate|]. intros H. simpl. now rewrite IH.
Qed.

(** What a write returns is what a read then gets: [get_task] on the id of
    the task [create_task] returned, or on the id [update_task] was
    called with, returns that same task. *)
Theorem get_after_write (s : State) :
  (forall utcnow task_in,
     exists task s',
       create_task utcnow task_in s = (Return task, s')
       /\ get_task (Task.id task) s' = (Return task, s'))
  /\ (forall k u task s',
        update_task k u s = (Return task, s') ->
        get_task k s' = (Return task, s')).
Proof.
  split.
  - intros utcnow task_in. rewrite create_task_eq.
    eexists. eexists. split; [reflexivity|].
    apply get_task_found. cbn [tasks_db Task.id new_task].
    apply PyDictFacts.get_setitem_eq.
  - intros k u task s' Hrun.
    destruct (PyDict.get k (tasks_db s)) as [stored|] eqn:Hget.
    + rewrite (update_task_found k u s Hget) in Hrun.
      destruct (Task.validate (merged stored u)); [|discriminate].
      inversion Hrun; subst. apply get_task_found.
      apply PyDictFacts.get_setitem_eq.
    + rewrite (update_task_missing k u s Hget) in Hrun. discriminate.
Qed.

(** In a store that satisfies the invariant, [create_task] adds its task
    at the end of the listing and leaves every task already stored under
    its key. *)
Theorem create_appends (s : State) (utcnow : datetime)
        (task_in : TaskCreate.t) (Hok : store_ok s) :
  exists task s',
    create_task utcnow task_in s = (Return task, s')
    /\ listing s' = listing s ++ [task]
    /\ (forall k stored_task,
          PyDict.get k (tasks_db s) = Some stored_task ->
          PyDict.get k (tasks_db s') = Some stored_task)
    /\ PyDict.contains (Task.id task) (tasks_db s) = false.
Proof.
  rewrite create_task_eq. eexists. eexists. split; [reflexivity|].
  pose proof (next_id_fresh Hok) as Hfresh.
  cbn [Task.id new_task]. split; [|split].
  - rewrite !listing_values. cbn [tasks_db].
    rewrite PyDictFacts.setitem_absent by exact Hfresh.
    unfold PyDict.values. now rewrite map_app.
  - intros k stored Hget. cbn [tasks_db].
    rewrite PyDictFacts.get_setitem_ne; [exact Hget|].
    intros <-. congruence.
  - unfold PyDict.contains. now rewrite Hfresh.
Qed.

(** A successful [update_task(k, ...)] leaves the task under every other
    key, the order of the keys and the counter as they were. *)
Theorem update_leaves_others (s s' : State) (k : Z) (u : TaskUpdate.t)
        (task : Task.t)
        (Hrun : update_task k u s = (Return task, s')) :
  (forall k', k' <> k ->
     PyDict.get k' (tasks_db s') = PyDict.get k' (tasks_db s))
  /\ PyDict.keys (tasks_db s') = PyDict.keys (tasks_db s)
  /\ current_id s' = current_id s.
Proof.
  destruct (PyDict.get k (tasks_db s)) as [stored|] eqn:Hget.
  - rewrite (update_task_found k u s Hget) in Hrun.
    destruct (Task.validate (merged stored u)); [|discriminate].
    inversion Hrun; subst. cbn [tasks_db with_tasks_db current_id].
    split; [|split; [|reflexivity]].
    + intros k' Hne. apply PyDictFacts.get_setitem_ne. congruence.
    + apply PyDictFacts.keys_setitem_present.
      unfold PyDict.contains. now rewrite Hget.
  - rewrite (update_task_missing k u s Hget) in Hrun. discriminate.
Qed.

(** What [Task.validate] builds from merged data dumps back to that
    data. *)
Lemma validate_merged_dict stored_task u task :
  Task.validate (merged stored_task u) = Return task ->
  Task.dict task = merged stored_task u.
Proof.
  destruct u as [ti de st du a].
  destruct ti as [|[|]], st as [|[|]], de, du, a; cbn;
    intros H; inversion H; subst; reflexivity.
Qed.

Lemma over_assoc (A : Type) (a b c : entry A) :
  Data.over (Data.over a b) c = Data.over a (Data.over b c).
Proof. now destruct c, b. Qed.

Lemma update_assoc a b c :
  Data.update (Data.update a b) c = Data.update a (Data.update b c).
Proof.
  unfold Data.update. cbn [Data.title Data.description Data.status
    Data.due_date Data.assignee Data.id Data.created_at].
  now rewrite !over_assoc.
Qed.

Lemma merged_after stored_task u1 u2 task1 :
  Task.validate (merged stored_task u1) = Return task1 ->
  merged task1 u2 = merged stored_task (update_then u1 u2).
Proof.
  intros Hv. unfold merged at 1.
  rewrite (@validate_merged_dict stored_task u1 task1 Hv). unfold merged.
  now rewrite update_assoc.
Qed.

(** Two successful updates of the same task in a row are one update with
    the two payloads combined, the second winning where both give a
    field: same returned task, same store. *)
Theorem updates_combine (s s1 s2 : State) (k : Z) (u1 u2 : TaskUpdate.t)
        (task1 task2 : Task.t)
        (Hfirst : update_task k u1 s = (Return task1, s1))
        (Hsecond : update_task k u2 s1 = (Return task2, s2)) :
  update_task k (update_then u1 u2) s = (Return task2, s2).
Proof.
  destruct (PyDict.get k (tasks_db s)) as [stored|] eqn:Hget;
    [|rewrite (update_task_missing k u1 s Hget) in Hfirst; discriminate].
  rewrite (update_task_found k u1 s Hget) in Hfirst.
  destruct (Task.validate (merged stored u1)) as [t1|] eqn:Hv1;
    [|discriminate].
  inversion Hfirst; subst. clear Hfirst.
  assert (Hget1 : PyDict.get k (tasks_db (with_tasks_db s
                     (PyDict.setitem k task1 (tasks_db s)))) = Some task1)
    by apply PyDictFacts.get_setitem_eq.
  rewrite (update_task_found k u2 _ Hget1) in Hsecond.
  rewrite (@merged_after stored u1 u2 task1 Hv1) in Hsecond.
  rewrite (update_task_found k (update_then u1 u2) s Hget).
  destruct (Task.validate (merged stored (update_then u1 u2)));
    [|discriminate].
  inversion Hsecond; subst. unfold with_tasks_db.
  cbn [tasks_db current_id]. now rewrite setitem_setitem.
Qed.

(** A successful update done a second time returns the same task and
    changes nothing. *)
Theorem update_twice_is_once (s s1 : State) (k : Z) (u : TaskUpdate.t)
        (task : Task.t)
        (Hrun : update_task k u s = (Return task, s1)) :
  update_task k u s1 = (Return task, s1).
Proof.
  destruct (PyDict.get k (tasks_db s)) as [stored|] eqn:Hget;
    [|rewrite (update_task_missing k u s Hget) in Hrun; discriminate].
  rewrite (update_task_found k u s Hget) in Hrun.
  destruct (Task.validate (merged stored u)) as [t1|] eqn:Hv;
    [|discriminate].
  inversion Hrun; subst. clear Hrun.
  assert (Hget1 : PyDict.get k (tasks_db (with_tasks_db s
                     (PyDict.setitem k task (tasks_db s)))) = Some task)
    by apply PyDictFacts.get_setitem_eq.
  rewrite (update_task_found k u _ Hget1).
  assert (Hsame : merged task u = merged stored u).
  { unfold merged at 1. rewrite (@validate_merged_dict stored u task Hv).
    unfold merged. rewrite update_assoc. f_equal.
    destruct u as [ti de st du a]. unfold Data.update. cbn.
    now destruct ti, de, st, du, a. }
  rewrite Hsame, Hv. unfold with_tasks_db. cbn [tasks_db current_id].
  now rewrite setitem_setitem.
Qed.

(** In a store that satisfies the invariant, [create_task] followed by
    [delete_task] on the id it returned gives back the dictionary as it
    was, entry for entry; the counter stays one higher. *)
Theorem create_then_delete (s : State) (utcnow : datetime)
        (task_in : TaskCreate.t) (Hok : store_ok s) :
  exists task s1 s2,
    create_task utcnow task_in s = (Return task, s1)
    /\ delete_task (Task.id task) s1 = (Return tt, s2)
    /\ tasks_db s2 = tasks_db s
    /\ current_id s2 = current_id s + 1.
Proof.
  rewrite create_task_eq. eexists. eexists. eexists.
  split; [reflexivity|]. cbn [Task.id new_task].
  pose proof (next_id_fresh Hok) as Hfresh.
  set (k := current_id s + 1) in *.
  assert (Hin : PyDict.contains k
                  (PyDict.setitem k (new_task k utcnow task_in) (tasks_db s))
                = true)
    by (unfold PyDict.contains; now rewrite PyDictFacts.get_setitem_eq).
  rewrite delete_task_found by exact Hin.
  split; [reflexivity|]. cbn [tasks_db with_tasks_db current_id].
  split; [|reflexivity].
  rewrite PyDictFacts.setitem_absent by exact Hfresh.
  unfold PyDict.delitem. rewrite filter_app. simpl.
  rewrite Z.eqb_refl. simpl. rewrite app_nil_r.
  now apply delitem_absent.
Qed.

(* ================================================================== *)
(** ** Further properties: counting, lookup, schemas, status codes *)
(* ================================================================== *)

Lemma effect_count s c r s' :
  store_ok s -> effect s c r s' ->
  (List.length (listing s') + (if is_deletion (c, r) then 1 else 0)
   = List.length (listing s)
     + match History.created (c, r) with Some _ => 1 | None => 0 end)%nat.
Proof.
  intros Hok He. pose proof Hok as [Hc Hu Hk Hi].
  rewrite !listing_values. unfold PyDict.values. rewrite !length_map.
  destruct He as [c r Hcr _ Hdel | now tin | k u stored task Hget Hv | k Hin].
  - rewrite Hcr.
    assert (is_deletion (c, r) = false) as ->; [|lia].
    destruct c as [| |k| |]; try reflexivity.
    destruct r as [v|e]; [|reflexivity].
    specialize (Hdel k). simpl in Hdel. rewrite Z.eqb_refl in Hdel.
    discriminate.
  - cbn [tasks_db is_deletion History.created]. rewrite length_app.
    simpl. lia.
  - cbn [tasks_db with_tasks_db is_deletion History.created].
    rewrite PyDictFacts.setitem_present_map, length_map; [lia | exact Hu|].
    unfold PyDict.contains. now rewrite Hget.
  - cbn [tasks_db with_tasks_db is_deletion History.created].
    pose proof (PyDictFacts.length_delitem k Hu Hin) as Hlen.
    rewrite Hlen. lia.
Qed.

Lemma count_run cs : forall s,
  store_ok s ->
  (List.length (listing (final cs s))
   + List.length (filter is_deletion (history cs s))
   = List.length (listing s)
     + List.length (History.created_tasks (history cs s)))%nat.
Proof.
  induction cs as [|c cs IH]; intros s Hok.
  - unfold final, history. simpl. lia.
  - rewrite final_cons, history_cons.
    pose proof (effect_count Hok (exec_effect c Hok)) as Hstep.
    specialize (IH _ (exec_ok c Hok)).
    cbn [filter History.created_tasks].
    destruct (is_deletion (c, fst (exec c s)));
      destruct (History.created (c, fst (exec c s)));
      cbn [List.length]; lia.
Qed.

(** After any sequence of calls from the empty store, the number of tasks
    listed plus the number of deletes that returned is the number of
    creates; so the listing never has more tasks than the counter says. *)
Theorem listing_counts (cs : list call) :
  (List.length (listing (final cs initial))
   + List.length (filter is_deletion (history cs initial))
   = List.length (filter is_create cs))%nat
  /\ Z.of_nat (List.length (listing (final cs initial)))
     <= current_id (final cs initial).
Proof.
  pose proof (count_run cs initial_ok) as Hcount.
  destruct (counter_counts_creates cs) as [Hc Hlen].
  change (listing initial) with (@nil Task.t) in Hcount.
  cbn [List.length] in Hcount. rewrite Hlen in Hcount.
  split; lia.
Qed.

(** In a store that satisfies the invariant, [get_task(k)] returns a task
    exactly when [list_tasks()] lists that task and its id is [k]; it
    raises 404 exactly when no listed task has id [k]. *)
Theorem get_agrees_with_listing (s : State) (k : Z) (Hok : store_ok s) :
  (forall task,
     get_task k s = (Return task, s)
     <-> In task (listing s) /\ Task.id task = k)
  /\ (get_task k s = (Raise (HTTPException 404 "Task not found"), s)
      <-> ~ In k (listed_ids s)).
Proof.
  split.
  - intros task. split.
    + intros Hrun.
      destruct (PyDict.get k (tasks_db s)) as [t|] eqn:Hget.
      * rewrite (get_task_found k s Hget) in Hrun. inversion Hrun; subst.
        split; [|exact (stored_id _ Hok Hget)].
        apply PyDictFacts.get_Some_In in Hget.
        rewrite listing_values. apply (in_map snd) in Hget. exact Hget.
      * rewrite (get_task_missing k s Hget) in Hrun. discriminate.
    + intros [Hin <-]. apply get_task_found. now apply listed_get.
  - rewrite (listed_ids_keys Hok), <- PyDictFacts.get_None_keys.
    destruct (PyDict.get k (tasks_db s)) as [t|] eqn:Hget.
    + rewrite (get_task_found k s Hget). split; discriminate.
    + rewrite (get_task_missing k s Hget). split; reflexivity.
Qed.

(** Dumping a model and building it again gives the model back: for
    [Task], for [TaskCreate], and for the set fields of [TaskUpdate]. *)
Theorem models_round_trip :
  (forall task, Task.validate (Task.dict task) = Return task)
  /\ (forall task_in,
        TaskCreate.validate (TaskCreate.dict task_in) = inr task_in)
  /\ (forall u, TaskUpdate.validate (TaskUpdate.dict_exclude_unset u) = u).
Proof.
  split; [|split].
  - now intros [].
  - now intros [].
  - now intros [].
Qed.

(** The status code of every response: [create_task] 201 and
    [list_tasks] 200 always; [get_task] 200 and [delete_task] 204 on a
    key of the store and 404 otherwise; [update_task] 404 exactly off the
    keys of the store, and 200 or 500 on them. *)
Theorem status_codes (s : State) :
  (forall utcnow task_in, status_of (Create utcnow task_in) s = 201)
  /\ status_of ListAll s = 200
  /\ (forall k, status_of (Get k) s
                = if PyDict.contains k (tasks_db s) then 200 else 404)
  /\ (forall k, status_of (Delete k) s
                = if PyDict.contains k (tasks_db s) then 204 else 404)
  /\ (forall k u, status_of (Update k u) s = 404
                  <-> PyDict.contains k (tasks_db s) = false)
  /\ (forall k u, PyDict.contains k (tasks_db s) = true ->
                  status_of (Update k u) s = 200
                  \/ status_of (Update k u) s = 500).
Proof.
  unfold status_of, exec, fmap, bind, PyDict.contains.
  split; [|split; [|split; [|split; [|split]]]].
  - intros. now rewrite create_task_eq.
  - now rewrite list_tasks_eq.
  - intros k. destruct (PyDict.get k (tasks_db s)) as [t|] eqn:Hget.
    + now rewrite (get_task_found k s Hget).
    + now rewrite (get_task_missing k s Hget).
  - intros k. destruct (PyDict.get k (tasks_db s)) as [t|] eqn:Hget.
    + rewrite delete_task_found; [reflexivity|].
      unfold PyDict.contains. now rewrite Hget.
    + rewrite delete_task_missing; [reflexivity|].
      unfold PyDict.contains. now rewrite Hget.
  - intros k u. destruct (PyDict.get k (tasks_db s)) as [t|] eqn:Hget.
    + rewrite (update_task_found k u s Hget).
      destruct (Task.validate (merged t u)) as [t'|e] eqn:Hv.
      * split; discriminate.
      * unfold Task.validate in Hv.
        repeat match type of Hv with
               | context [match ?x with _ => _ end] => destruct x
               end; inversion Hv; split; discriminate.
    + rewrite (update_task_missing k u s Hget). split; reflexivity.
  - intros k u. destruct (PyDict.get k (tasks_db s)) as [t|] eqn:Hget;
      [intros _ | discriminate].
    rewrite (update_task_found k u s Hget).
    destruct (Task.validate (merged t u)) as [t'|e] eqn:Hv.
    + now left.
    + right. unfold Task.validate in Hv.
      repeat match type of Hv with
             | context [match ?x with _ => _ end] => destruct x
             end; inversion Hv; reflexivity.
Qed.

(* ================================================================== *)
(** ** The further properties at concrete inputs *)
(* ================================================================== *)

Lemma reachable_store_is_consistent_witness :
  In Sample.done_task (listing (final Sample.mixed initial))
  /\ 1 <= Task.id Sample.done_task <= current_id (final Sample.mixed initial)
  /\ get_task (Task.id Sample.done_task) (final Sample.mixed initial)
     = (Return Sample.done_task, final Sample.mixed initial).
Proof.
  assert (Hin : In Sample.done_task (listing (final Sample.mixed initial)))
    by (left; reflexivity).
  split; [exact Hin|].
  destruct (reachable_store_is_consistent Sample.mixed) as (_ & _ & H).
  exact (H Sample.done_task Hin).
Defined.

Lemma raising_call_writes_nothing_witness :
  fst (exec (Update 1 (TaskUpdate.validate Sample.title_null))
            Sample.one_task)
  = Raise (ValidationError [("title", none_not_allowed)])
  /\ snd (exec (Update 1 (TaskUpdate.validate Sample.title_null))
               Sample.one_task)
     = Sample.one_task.
Proof.
  assert (H : fst (exec (Update 1 (TaskUpdate.validate Sample.title_null))
                        Sample.one_task)
              = Raise (ValidationError [("title", none_not_allowed)]))
    by reflexivity.
  split; [exact H|].
  exact (raising_call_writes_nothing
           (Update 1 (TaskUpdate.validate Sample.title_null))
           Sample.one_task H).
Defined.

Lemma post_without_title_refused_witness :
  Data.title Sample.status_done = Absent
  /\ exists errs,
       POST_tasks Sample.noon Sample.status_done Sample.one_task
       = (Raise (RequestValidationError errs), Sample.one_task)
       /\ In ("title", missing) errs.
Proof.
  assert (H : Data.title Sample.status_done = Absent) by reflexivity.
  split; [exact H|].
  destruct (post_without_title_refused
              Sample.noon Sample.status_done Sample.one_task
              (or_introl H))
    as (errs & Hrun & _ & Hmissing & _).
  exists errs. split; [exact Hrun | exact (Hmissing H)].
Defined.

Lemma update_returns_iff_witness :
  PyDict.get 1 (tasks_db Sample.one_task) = Some Sample.first_task
  /\ (exists errs,
        update_task 1 (TaskUpdate.validate Sample.title_null) Sample.one_task
        = (Raise (ValidationError errs), Sample.one_task))
  /\ (exists task s',
        update_task 1 (TaskUpdate.validate Sample.status_done)
                    Sample.one_task
        = (Return task, s')).
Proof.
  assert (Hget : PyDict.get 1 (tasks_db Sample.one_task)
                 = Some Sample.first_task) by reflexivity.
  split; [exact Hget|]. split.
  - apply (update_returns_iff Sample.one_task 1
             (TaskUpdate.validate Sample.title_null) Hget).
    left. reflexivity.
  - apply (update_returns_iff Sample.one_task 1
             (TaskUpdate.validate Sample.status_done) Hget).
    split; discriminate.
Defined.

Lemma get_after_write_witness :
  update_task 1 (TaskUpdate.validate Sample.status_done) Sample.one_task
  = (Return Sample.done_task,
     with_tasks_db Sample.one_task [(1, Sample.done_task)])
  /\ get_task 1 (with_tasks_db Sample.one_task [(1, Sample.done_task)])
     = (Return Sample.done_task,
        with_tasks_db Sample.one_task [(1, Sample.done_task)]).
Proof.
  assert (H : update_task 1 (TaskUpdate.validate Sample.status_done)
                          Sample.one_task
              = (Return Sample.done_task,
                 with_tasks_db Sample.one_task [(1, Sample.done_task)]))
    by reflexivity.
  split; [exact H|].
  destruct (get_after_write Sample.one_task) as [_ Hup].
  exact (Hup 1 (TaskUpdate.validate Sample.status_done) Sample.done_task
             _ H).
Defined.

Lemma create_appends_witness :
  store_ok Sample.two_tasks
  /\ exists task s',
       create_task Sample.later Sample.write_spec Sample.two_tasks
       = (Return task, s')
       /\ listing s' = listing Sample.two_tasks ++ [task].
Proof.
  split; [exact two_tasks_ok|].
  destruct (create_appends Sample.later Sample.write_spec two_tasks_ok)
    as (task & s' & Hrun & Hlist & _).
  exists task, s'. split; assumption.
Defined.

Lemma update_leaves_others_witness :
  update_task 1 (TaskUpdate.validate Sample.status_done) Sample.two_tasks
  = (Return Sample.done_task,
     snd (update_task 1 (TaskUpdate.validate Sample.status_done)
                      Sample.two_tasks))
  /\ PyDict.get 2 (tasks_db
                     (snd (update_task 1
                             (TaskUpdate.validate Sample.status_done)
                             Sample.two_tasks)))
     = PyDict.get 2 (tasks_db Sample.two_tasks).
Proof.
  assert (H : update_task 1 (TaskUpdate.validate Sample.status_done)
                          Sample.two_tasks
              = (Return Sample.done_task,
                 snd (update_task 1 (TaskUpdate.validate Sample.status_done)
                                  Sample.two_tasks)))
    by reflexivity.
  split; [exact H|].
  destruct (@update_leaves_others _ _ _ _ _ H) as [Hothers _].
  apply Hothers. discriminate.
Defined.

Lemma updates_combine_witness :
  update_task 1 (TaskUpdate.validate Sample.status_done) Sample.one_task
  = (Return Sample.done_task,
     with_tasks_db Sample.one_task [(1, Sample.done_task)])
  /\ update_task 1 (TaskUpdate.validate Sample.write_spec_body)
                 (with_tasks_db Sample.one_task [(1, Sample.done_task)])
     = (Return Sample.done_task,
        with_tasks_db Sample.one_task [(1, Sample.done_task)])
  /\ update_task 1
       (update_then (TaskUpdate.validate Sample.status_done)
                    (TaskUpdate.validate Sample.write_spec_body))
       Sample.one_task
     = (Return Sample.done_task,
        with_tasks_db Sample.one_task [(1, Sample.done_task)]).
Proof.
  assert (H1 : update_task 1 (TaskUpdate.validate Sample.status_done)
                           Sample.one_task
               = (Return Sample.done_task,
                  with_tasks_db Sample.one_task [(1, Sample.done_task)]))
    by reflexivity.
  assert (H2 : update_task 1 (TaskUpdate.validate Sample.write_spec_body)
                 (with_tasks_db Sample.one_task [(1, Sample.done_task)])
               = (Return Sample.done_task,
                  with_tasks_db Sample.one_task [(1, Sample.done_task)]))
    by reflexivity.
  split; [exact H1|]. split; [exact H2|].
  exact (@updates_combine _ _ _ _ _ _ _ _ H1 H2).
Defined.

Lemma update_twice_is_once_witness :
  update_task 1 (TaskUpdate.validate Sample.status_done) Sample.one_task
  = (Return Sample.done_task,
     with_tasks_db Sample.one_task [(1, Sample.done_task)])
  /\ update_task 1 (TaskUpdate.validate Sample.status_done)
                 (with_tasks_db Sample.one_task [(1, Sample.done_task)])
     = (Return Sample.done_task,
        with_tasks_db Sample.one_task [(1, Sample.done_task)]).
Proof.
  assert (H : update_task 1 (TaskUpdate.validate Sample.status_done)
                          Sample.one_task
              = (Return Sample.done_task,
                 with_tasks_db Sample.one_task [(1, Sample.done_task)]))
    by reflexivity.
  split; [exact H|].
  exact (@update_twice_is_once _ _ _ _ _ H).
Defined.

Lemma create_then_delete_witness :
  store_ok Sample.two_tasks
  /\ exists task s1 s2,
       create_task Sample.later Sample.write_spec Sample.two_tasks
       = (Return task, s1)
       /\ delete_task (Task.id task) s1 = (Return tt, s2)
       /\ tasks_db s2 = tasks_db Sample.two_tasks.
Proof.
  split; [exact two_tasks_ok|].
  destruct (create_then_delete Sample.later Sample.write_spec two_tasks_ok)
    as (task & s1 & s2 & H1 & H2 & H3 & _).
  exists task, s1, s2. auto.
Defined.

Lemma get_agrees_with_listing_witness :
  store_ok Sample.two_tasks
  /\ In (new_task 2 Sample.later Sample.review) (listing Sample.two_tasks)
  /\ get_task 2 Sample.two_tasks
     = (Return (new_task 2 Sample.later Sample.review), Sample.two_tasks).
Proof.
  assert (Hin : In (new_task 2 Sample.later Sample.review)
                   (listing Sample.two_tasks))
    by (right; left; reflexivity).
  split; [exact two_tasks_ok|]. split; [exact Hin|].
  destruct (get_agrees_with_listing 2 two_tasks_ok) as [H _].
  apply H. split; [exact Hin | reflexivity].
Defined.

Lemma status_codes_witness :
  PyDict.contains 1 (tasks_db Sample.one_task) = true
  /\ (status_of (Update 1 (TaskUpdate.validate Sample.title_null))
                Sample.one_task = 200
      \/ status_of (Update 1 (TaskUpdate.validate Sample.title_null))
                   Sample.one_task = 500).
Proof.
  assert (Hin : PyDict.contains 1 (tasks_db Sample.one_task) = true)
    by reflexivity.
  split; [exact Hin|].
  destruct (status_codes Sample.one_task) as (_ & _ & _ & _ & _ & H).
  exact (H 1 (TaskUpdate.validate Sample.title_null) Hin).
Defined.
